(** * RAG chatbot over telephone dialogues: a model of [app.py]

    The application embeds a question, asks a pgvector table for the
    nearest dialogues, joins their texts into a context, asks a hosted
    chat model for an answer and keeps the conversation in the session
    state.  The model below follows [app.py] function by function.

    - Python [str] is a sequence of code points: [str := list codepoint].
    - Python [float] is abstracted to exact rationals ([Q]).
    - A Python call either returns or raises: [outcome].
    - The script mutates the session state and draws on the page: a state
      and exception monad [M] over [world], whose [log] records what was
      drawn and which external services were called, in order. *)

From Stdlib Require Import String Ascii List Bool Arith NArith ZArith QArith.
From Stdlib Require Import Lia Lqa Sorted Permutation.
Import ListNotations.
Close Scope Q_scope.

(** ** Strings *)

Definition codepoint := N.
Definition str := list codepoint.

Fixpoint bytes_of (s : string) : list N :=
  match s with
  | EmptyString => []
  | String a r => N_of_ascii a :: bytes_of r
  end.

(** The literals of [app.py] are written in this file as UTF-8 text;
    [utf8_decode] turns their bytes into the code points Python sees. *)
Fixpoint utf8_decode (bs : list N) : str :=
  match bs with
  | [] => []
  | b0 :: r0 =>
    if (b0 <? 128)%N then b0 :: utf8_decode r0 else
    match r0 with
    | [] => []
    | b1 :: r1 =>
      if (b0 <? 224)%N then ((b0 mod 32) * 64 + b1 mod 64)%N :: utf8_decode r1 else
      match r1 with
      | [] => []
      | b2 :: r2 =>
        if (b0 <? 240)%N
        then ((b0 mod 16) * 4096 + (b1 mod 64) * 64 + b2 mod 64)%N :: utf8_decode r2
        else
        match r2 with
        | [] => []
        | b3 :: r3 =>
          ((b0 mod 8) * 262144 + (b1 mod 64) * 4096 + (b2 mod 64) * 64 + b3 mod 64)%N
            :: utf8_decode r3
        end
      end
    end
  end.

Definition lit (s : string) : str := utf8_decode (bytes_of s).

(** [sep.join(parts)] of Python. *)
Fixpoint join (sep : str) (parts : list str) : str :=
  match parts with
  | [] => []
  | [p] => p
  | p :: rest => p ++ sep ++ join sep rest
  end.

(** ** Data of the application *)

Definition vector := list Q.

(** A row of the table [dialogues]. *)
Record DialogueRecord := {
  rec_id : Z;
  rec_dialogue_id : str;
  rec_contenu : str;
  rec_embedding : vector
}.

(** A row fetched by the search query:
    [(id, dialogue_id, contenu, similarity)]. *)
Record row := {
  doc_id : Z;
  dialogue_id : str;
  text : str;
  similarity : Q
}.

Inductive role := user | assistant.

(** An entry of [st.session_state.messages]: a dict with the keys
    ["role"] and ["content"], and for assistant entries ["sources"]
    ([None] when the key is absent). *)
Record message := {
  msg_role : role;
  msg_content : str;
  msg_sources : option (list row)
}.

(** What the script draws and which external calls it makes.  The
    containers ([st.sidebar], [st.spinner], [st.chat_message],
    [st.expander]) only place what is drawn and are left out.
    [source_heading i sim] is the line
    [st.markdown(f"**Dialogue {i}** (similarité: {similarity:.2%})")] and
    [sidebar_success count] the line
    [st.sidebar.success(f"💬 {dialogue_count} dialogues en base")], with
    their numbers kept as numbers. *)
Inductive event :=
| st_title (s : str)
| st_header (s : str)
| st_subheader (s : str)
| st_markdown (s : str)
| st_text (s : str)
| st_error (s : str)
| st_divider
| sidebar_success (count : Z)
| sidebar_warning (e : str)
| sidebar_info (s : str)
| source_heading (i : nat) (sim : Q)
| call_encode (query : str)
| call_search (embedding_list : vector) (top_k : Z)
| call_count
| call_create (prompt : str) (temperature : Q) (max_tokens : Z)
| st_rerun.

Record world := {
  messages : option (list message);
  log : list event
}.

(** ** Returning or raising, with a state

    [Raise e] is an exception of class [Exception] with the text [e], the
    class that the clauses [except Exception] of the script catch.  What
    is outside that class is modelled where it ends a run, see
    [handle_question_escaping]. *)

Inductive outcome (A : Type) :=
| Ok (a : A)
| Raise (e : str).

Arguments Ok {A} a.
Arguments Raise {A} e.

Definition M (A : Type) := world -> outcome A * world.

Definition ret {A} (a : A) : M A := fun w => (Ok a, w).

Definition raise {A} (e : str) : M A := fun w => (Raise e, w).

Definition bind {A B} (m : M A) (k : A -> M B) : M B :=
  fun w =>
    match m w with
    | (Ok a, w') => k a w'
    | (Raise e, w') => (Raise e, w')
    end.

(** [try: m  except Exception as e: h e] *)
Definition try_except {A} (m : M A) (h : str -> M A) : M A :=
  fun w =>
    match m w with
    | (Ok a, w') => (Ok a, w')
    | (Raise e, w') => h e w'
    end.

Definition lift {A} (o : outcome A) : M A := fun w => (o, w).

Definition emit (e : event) : M unit :=
  fun w => (Ok tt, {| messages := messages w; log := log w ++ [e] |}).

Declare Scope py_scope.
Delimit Scope py_scope with py.
Notation "x <- m ;; k" := (bind m (fun x => k))
  (at level 61, m at next level, right associativity) : py_scope.
Notation "m ;; k" := (bind m (fun _ => k))
  (at level 61, right associativity) : py_scope.
Open Scope py_scope.

(** ** External collaborators *)

(** [SentenceTransformer]: [encode] returns the embedding or raises. *)
Record SentenceTransformer := {
  encode : str -> outcome vector
}.

(** A psycopg connection: the rows of [dialogues] behind it, and for each
    statement whether executing it raises (connection lost, malformed
    vector, ...). *)
Record connection := {
  dialogues : list DialogueRecord;
  search_error : vector -> Z -> option str;
  count_error : option str
}.

(** The Groq client: [create prompt temperature max_tokens] stands for
    [client.chat.completions.create(...).choices[0].message.content], the
    request holding the prompt as its single user message, for the model
    [llama-3.3-70b-versatile]. *)
Record Groq := {
  create : str -> Q -> Z -> outcome str
}.

(** The process environment and the constructors the script calls.
    [st.cache_resource] keeps the objects built by the first run; a run
    is modelled with the objects its environment gives. *)
Record environment := {
  getenv : str -> option str;
  new_SentenceTransformer : str -> outcome SentenceTransformer;
  psycopg_connect : str -> str -> str -> str -> str -> outcome connection;
  new_Groq : str -> Groq
}.

(** The widgets of one run of the script. *)
Record widgets := {
  top_k_slider : Z;
  temperature_slider : Q;
  max_tokens_slider : Z;
  chat_input : option str;
  clear_button : bool
}.

(** ** Observations on a world *)

(** The world [w] after the events [evs] were appended to its log. *)
Definition logged (w : world) (evs : list event) : world :=
  {| messages := messages w; log := log w ++ evs |}.

(** The transcript of the session; a session that never ran has none. *)
Definition transcript (w : world) : list message :=
  match messages w with
  | Some l => l
  | None => []
  end.

Definition is_create (e : event) : bool :=
  match e with
  | call_create _ _ _ => true
  | _ => false
  end.

Definition is_encode (e : event) : bool :=
  match e with
  | call_encode _ => true
  | _ => false
  end.

(** Calls to the embedding model, the database and the chat model. *)
Definition is_external_call (e : event) : bool :=
  match e with
  | call_encode _ | call_search _ _ | call_count | call_create _ _ _ => true
  | _ => false
  end.

Definition user_turn (question : str) : message :=
  {| msg_role := user; msg_content := question; msg_sources := None |}.

Definition assistant_turn (response : str) (sources : list row) : message :=
  {| msg_role := assistant; msg_content := response; msg_sources := Some sources |}.

Definition is_user_turn (m : message) : bool :=
  match msg_role m, msg_sources m with
  | user, None => true
  | _, _ => false
  end.

Definition is_assistant_turn (m : message) : bool :=
  match msg_role m, msg_sources m with
  | assistant, Some _ => true
  | _, _ => false
  end.

(** User and assistant turns alternate, a user turn first, an assistant
    turn last, and the key ["sources"] is on the assistant turns only. *)
Fixpoint alternating (l : list message) : bool :=
  match l with
  | [] => true
  | u :: a :: rest => is_user_turn u && is_assistant_turn a && alternating rest
  | _ => false
  end.

Definition is_error (e : event) : bool :=
  match e with
  | st_error _ => true
  | _ => false
  end.

Definition is_text (e : event) : bool :=
  match e with
  | st_text _ => true
  | _ => false
  end.

Definition is_search (e : event) : bool :=
  match e with
  | call_search _ _ => true
  | _ => false
  end.

(** Calls made to answer a question: the embedding model, the search
    statement and the chat model. *)
Definition is_query_call (e : event) : bool :=
  match e with
  | call_encode _ | call_search _ _ | call_create _ _ _ => true
  | _ => false
  end.

Definition is_heading (e : event) : bool :=
  match e with
  | source_heading _ _ => true
  | _ => false
  end.

(** What stays on the page: neither a call nor an error banner. *)
Definition is_drawing (e : event) : bool :=
  negb (is_external_call e) && negb (is_error e).

(** Every turn belongs to a question: a user turn, followed or not by
    the assistant turn that answers it; the key ["sources"] is on the
    assistant turns only. *)
Fixpoint follows_questions (l : list message) : bool :=
  match l with
  | [] => true
  | u :: rest =>
    is_user_turn u &&
    match rest with
    | [] => true
    | a :: rest' =>
      if is_assistant_turn a then follows_questions rest'
      else follows_questions rest
    end
  end.

(** [a] comes before [b] in an answer ordered by similarity, descending. *)
Definition similarity_ge (a b : row) : Prop :=
  (similarity b <= similarity a)%Q.

(** [m] returns [a] and draws [evs], whatever the world. *)
Definition logs {A} (m : M A) (a : A) (evs : list event) : Prop :=
  forall w, m w = (Ok a, logged w evs).

(** ** Sample collaborators

    Concrete models, tables and clients on which the script is run. *)

Definition dot (a b : vector) : Q :=
  fold_right Qplus 0%Q (map (fun p => (fst p * snd p)%Q) (combine a b)).

(** The cosine distance of two vectors of Euclidean length one:
    one minus their inner product. *)
Definition unit_cosine_distance (a b : vector) : Q := (1 - dot a b)%Q.

Definition sample_model : SentenceTransformer :=
  {| encode := fun _ => Ok [1; 0]%Q |}.

Definition failing_model : SentenceTransformer :=
  {| encode := fun _ => Raise (lit "out of memory") |}.

Definition sample_table : list DialogueRecord :=
  [ {| rec_id := 1; rec_dialogue_id := lit "d1";
       rec_contenu := lit "Le client signale une panne de connexion.";
       rec_embedding := [3 # 5; 4 # 5]%Q |};
    {| rec_id := 2; rec_dialogue_id := lit "d2";
       rec_contenu := lit "Bonjour, je vous appelle pour ma facture.";
       rec_embedding := [1; 0]%Q |};
    {| rec_id := 3; rec_dialogue_id := lit "d3";
       rec_contenu := lit "Merci, au revoir.";
       rec_embedding := [0; 1]%Q |} ].

(** One dialogue whose embedding is opposite to the one [sample_model]
    gives to every question. *)
Definition opposite_table : list DialogueRecord :=
  [ {| rec_id := 7; rec_dialogue_id := lit "d7";
       rec_contenu := lit "Rien à voir.";
       rec_embedding := [-1; 0]%Q |} ].

Definition conn_over (table : list DialogueRecord) : connection :=
  {| dialogues := table; search_error := fun _ _ => None; count_error := None |}.

Definition broken_conn : connection :=
  {| dialogues := sample_table;
     search_error := fun _ _ => Some (lit "server closed the connection unexpectedly");
     count_error := Some (lit "server closed the connection unexpectedly") |}.

Definition sample_client : Groq :=
  {| create := fun _ _ _ => Ok (lit "Le client signale une panne.") |}.

Definition failing_client : Groq :=
  {| create := fun _ _ _ => Raise (lit "rate limit exceeded") |}.

Definition row_A : row :=
  {| doc_id := 1; dialogue_id := lit "d1"; text := lit "A"; similarity := 9 # 10 |}.

Definition row_B : row :=
  {| doc_id := 2; dialogue_id := lit "d2"; text := lit "B"; similarity := 1 # 2 |}.

Definition started : world := {| messages := Some []; log := [] |}.

Definition sample_question : str := lit "Quel est le problème signalé ?".

Definition sample_env (api_key : option str) : environment :=
  {| getenv := fun name => if list_eq_dec N.eq_dec name (lit "GROQ_API_KEY")
                           then api_key else None;
     new_SentenceTransformer := fun _ => Ok sample_model;
     psycopg_connect := fun _ _ _ _ _ => Ok (conn_over sample_table);
     new_Groq := fun _ => sample_client |}.

Definition sample_ui (question : option str) (clear : bool) : widgets :=
  {| top_k_slider := 3; temperature_slider := 7 # 10; max_tokens_slider := 500;
     chat_input := question; clear_button := clear |}.

(** An environment whose loader and whose [psycopg.connect] end as
    given. *)
Definition env_with (model : outcome SentenceTransformer)
    (conn : outcome connection) (api_key : option str) : environment :=
  {| getenv := fun name => if list_eq_dec N.eq_dec name (lit "GROQ_API_KEY")
                           then api_key else None;
     new_SentenceTransformer := fun _ => model;
     psycopg_connect := fun _ _ _ _ _ => conn;
     new_Groq := fun _ => sample_client |}.

Definition sample_key : str := lit "gsk_example".

(** ** The script *)

Section App.

(** The operator [<=>] of pgvector, the cosine distance of two vectors,
    belongs to the database; the script only subtracts it from one. *)
Variable cosine_distance : vector -> vector -> Q.

(** [os.getenv(name, default)] *)
Definition getenv_default (env : environment) (name default : str) : str :=
  match getenv env name with
  | Some v => v
  | None => default
  end.

Definition load_embedding_model (env : environment) : M SentenceTransformer :=
  lift (new_SentenceTransformer env (lit "paraphrase-multilingual-MiniLM-L12-v2")).

Definition get_db_connection (env : environment) : M (option connection) :=
  try_except
    (conn <- lift (psycopg_connect env
                     (getenv_default env (lit "DB_HOST") (lit "localhost"))
                     (getenv_default env (lit "DB_PORT") (lit "5432"))
                     (getenv_default env (lit "DB_NAME") (lit "rag_chatbot"))
                     (getenv_default env (lit "DB_USER") (lit "postgres"))
                     (getenv_default env (lit "DB_PASSWORD") []));;
     ret (Some conn))
    (fun e =>
       emit (st_error (lit "Erreur de connexion à la base de données: " ++ e));;
       ret None).

Definition get_groq_client (env : environment) : M (option Groq) :=
  match getenv env (lit "GROQ_API_KEY") with
  | Some (c :: key) => ret (Some (new_Groq env (c :: key)))
  | _ =>
    emit (st_error (lit "GROQ_API_KEY non trouvée dans le fichier .env"));;
    ret None
  end.

(** The [SELECT] of [search_similar_dialogues]: every row with
    [1 - (embedding <=> query)] as [similarity],
    [ORDER BY similarity DESC], [LIMIT top_k]. *)
Definition with_similarity (embedding_list : vector) (d : DialogueRecord) : row :=
  {| doc_id := rec_id d;
     dialogue_id := rec_dialogue_id d;
     text := rec_contenu d;
     similarity := (1 - cosine_distance (rec_embedding d) embedding_list)%Q |}.

Fixpoint insert_desc (r : row) (l : list row) : list row :=
  match l with
  | [] => [r]
  | r' :: rest =>
    if Qle_bool (similarity r') (similarity r)
    then r :: r' :: rest
    else r' :: insert_desc r rest
  end.

(** [ORDER BY similarity DESC] leaves the order of rows of equal
    similarity open; this sort keeps them in the order of the table, and
    nothing proved below depends on which order is taken. *)
Definition order_by_similarity_desc (l : list row) : list row :=
  fold_right insert_desc [] l.

Definition select_similar (table : list DialogueRecord)
    (embedding_list : vector) (top_k : Z) : list row :=
  firstn (Z.to_nat top_k)
    (order_by_similarity_desc (map (with_similarity embedding_list) table)).

(** [cur.execute(...)] followed by [cur.fetchall()]. *)
Definition execute_search (conn : connection) (embedding_list : vector)
    (top_k : Z) : M (list row) :=
  emit (call_search embedding_list top_k);;
  match search_error conn embedding_list top_k with
  | Some e => raise e
  | None =>
    if (top_k <? 0)%Z then raise (lit "LIMIT must not be negative")
    else ret (select_similar (dialogues conn) embedding_list top_k)
  end.

Definition search_similar_dialogues (query : str) (model : SentenceTransformer)
    (conn : connection) (top_k : Z) : M (list row) :=
  try_except
    (emit (call_encode query);;
     query_embedding <- lift (encode model query);;
     let embedding_list := query_embedding in
     results <- execute_search conn embedding_list top_k;;
     ret results)
    (fun e =>
       emit (st_error (lit "Erreur lors de la recherche: " ++ e));;
       ret []).

Definition prompt_of (question context : str) : str :=
  lit "Tu es un assistant intelligent qui répond aux questions en te basant sur des dialogues de conversations téléphoniques.

Contexte (extraits de dialogues):
" ++ context ++ lit "

Question: " ++ question ++ lit "

Réponds de manière claire et concise en français, en t'appuyant sur les informations contenues dans les dialogues. Si les dialogues ne contiennent pas d'information pertinente, dis-le clairement.".

Definition generate_response (question context : str) (client : Groq)
    (temperature : Q) (max_tokens : Z) : M str :=
  let prompt := prompt_of question context in
  try_except
    (emit (call_create prompt temperature max_tokens);;
     content <- lift (create client prompt temperature max_tokens);;
     ret content)
    (fun e => ret (lit "Erreur lors de la génération: " ++ e)).

(** [text[:300] + "..." if len(text) > 300 else text] *)
Definition preview (text : str) : str :=
  if 300 <? length text then firstn 300 text ++ lit "..." else text.

(** The body of the expander "Dialogues sources";
    [enumerate(sources, 1)] starts the count at [i = 1]. *)
Fixpoint show_sources_from (i : nat) (sources : list row) : M unit :=
  match sources with
  | [] => ret tt
  | r :: rest =>
    emit (source_heading i (similarity r));;
    emit (st_markdown (lit "*ID: " ++ dialogue_id r ++ lit "*"));;
    emit (st_text (preview (text r)));;
    emit st_divider;;
    show_sources_from (S i) rest
  end.

Definition show_sources (sources : list row) : M unit :=
  show_sources_from 1 sources.

(** [st.session_state.messages] *)
Definition get_messages : M (list message) :=
  fun w =>
    match messages w with
    | Some l => (Ok l, w)
    | None => (Raise (lit "AttributeError: st.session_state has no attribute messages"), w)
    end.

Definition set_messages (l : list message) : M unit :=
  fun w => (Ok tt, {| messages := Some l; log := log w |}).

Definition append_message (m : message) : M unit :=
  l <- get_messages;;
  set_messages (l ++ [m]).

Definition init_messages : M unit :=
  fun w =>
    match messages w with
    | None => set_messages [] w
    | Some _ => (Ok tt, w)
    end.

Fixpoint show_history (l : list message) : M unit :=
  match l with
  | [] => ret tt
  | m :: rest =>
    emit (st_markdown (msg_content m));;
    match msg_sources m with
    | Some (r :: rs) => show_sources (r :: rs)
    | _ => ret tt
    end;;
    show_history rest
  end.

Definition no_results_message : str :=
  lit "Désolé, je n'ai pas trouvé de dialogues pertinents pour répondre à votre question.".

Definition context_of (similar_dialogues : list row) : str :=
  join (lit "

") (map text similar_dialogues).

(** The body of [if question := st.chat_input(...)]. *)
Definition handle_question (model : SentenceTransformer) (conn : connection)
    (client : Groq) (top_k : Z) (temperature : Q) (max_tokens : Z)
    (question : str) : M unit :=
  append_message {| msg_role := user; msg_content := question; msg_sources := None |};;
  emit (st_markdown question);;
  similar_dialogues <-
    try_except
      (search_similar_dialogues question model conn top_k)
      (fun e =>
         emit (st_error (lit "Erreur lors de la recherche: " ++ e));;
         ret []);;
  response <-
    match similar_dialogues with
    | [] =>
      let response := no_results_message in
      emit (st_markdown response);;
      ret response
    | _ :: _ =>
      let context := context_of similar_dialogues in
      response <- generate_response question context client temperature max_tokens;;
      emit (st_markdown response);;
      show_sources similar_dialogues;;
      ret response
    end;;
  append_message {| msg_role := assistant;
                    msg_content := response;
                    msg_sources := Some similar_dialogues |}.

(** The last lines of [main]: the button is drawn only when the
    transcript is not empty.  [st.rerun()] ends the run, which is at its
    last statement. *)
Definition clear_history (clicked : bool) : M unit :=
  l <- get_messages;;
  match l with
  | [] => ret tt
  | _ :: _ =>
    if clicked then set_messages [];; emit st_rerun else ret tt
  end.

(** [main], in the order of its lines: the page and the sidebar, the
    resources, the count of dialogues, the conversation. *)
Definition draw_page : M unit :=
  emit (st_title (lit "💬 Chatbot RAG - Analyse de Dialogues"));;
  emit (st_markdown (lit "
    Posez vos questions et obtenez des réponses basées sur des dialogues de conversations réelles.
    Le système utilise la recherche vectorielle pour trouver les dialogues les plus pertinents.
    "));;
  emit (st_header (lit "⚙️ Paramètres"));;
  emit st_divider;;
  emit (st_subheader (lit "ℹ️ Système"));;
  emit (st_markdown (lit "
        - **Embeddings**: paraphrase-multilingual-MiniLM-L12-v2
        - **LLM**: Llama 3.3 70B (Groq)
        - **Base**: PostgreSQL + pgvector
        - **Type**: Dialogues téléphoniques
        ")).

Definition show_dialogue_count (conn : connection) : M unit :=
  try_except
    (emit call_count;;
     match count_error conn with
     | Some e => raise e
     | None => emit (sidebar_success (Z.of_nat (length (dialogues conn))))
     end)
    (fun e =>
       emit (sidebar_warning (lit "⚠️ Erreur: " ++ e));;
       emit (sidebar_info (lit "Exécutez d'abord le notebook pour charger les dialogues."))).

Definition conversation (model : SentenceTransformer) (conn : connection)
    (client : Groq) (ui : widgets) : M unit :=
  emit st_divider;;
  init_messages;;
  history <- get_messages;;
  show_history history;;
  match chat_input ui with
  | Some (c :: q) =>
    handle_question model conn client (top_k_slider ui) (temperature_slider ui)
      (max_tokens_slider ui) (c :: q)
  | _ => ret tt
  end;;
  clear_history (clear_button ui).

Definition main (env : environment) (ui : widgets) : M unit :=
  draw_page;;
  model <- load_embedding_model env;;
  conn <- get_db_connection env;;
  client <- get_groq_client env;;
  match conn, client with
  | Some conn, Some client =>
    show_dialogue_count conn;;
    conversation model conn client ui
  | _, _ =>
    emit (st_error (lit "Impossible d'initialiser le système. Vérifiez votre configuration."))
  end.

(** A session: the script runs once per interaction, each time with the
    session state the previous run left (also when that run raised). *)
Fixpoint run_session (runs : list (environment * widgets)) (w : world) : world :=
  match runs with
  | [] => w
  | (env, ui) :: rest => run_session rest (snd (main env ui w))
  end.

Definition fresh_session : world := {| messages := None; log := [] |}.


(** ** A run that an exception ends

    The clauses [except Exception] catch the exceptions of class
    [Exception].  An exception outside that class ([KeyboardInterrupt],
    [SystemExit], the exceptions with which Streamlit stops or reruns a
    script) passes them, and the calls to [st] between line 199 and line
    236 are in no [try] at all: such an exception ends the run where it is
    raised, with the session state as it is there.  [escape] names three
    places between the two [append] that every question reaches. *)
Inductive escape :=
| in_question_markdown
| in_encode
| in_answer_markdown.

(** The body of [if question := st.chat_input(...)] when the exception
    [e] escapes: from [st.markdown(question)] (line 203), from
    [model.encode] (line 62) as an exception that is no [Exception], or
    from [st.markdown(response)] (line 217 or 225). *)
Definition handle_question_escaping (place : escape) (e : str)
    (model : SentenceTransformer) (conn : connection) (client : Groq)
    (top_k : Z) (temperature : Q) (max_tokens : Z) (question : str) : M unit :=
  append_message {| msg_role := user; msg_content := question; msg_sources := None |};;
  match place with
  | in_question_markdown => raise e
  | in_encode =>
    emit (st_markdown question);;
    emit (call_encode question);;
    raise e
  | in_answer_markdown =>
    emit (st_markdown question);;
    similar_dialogues <-
      try_except
        (search_similar_dialogues question model conn top_k)
        (fun e =>
           emit (st_error (lit "Erreur lors de la recherche: " ++ e));;
           ret []);;
    match similar_dialogues with
    | [] => raise e
    | _ :: _ =>
      let context := context_of similar_dialogues in
      response <- generate_response question context client temperature max_tokens;;
      raise e
    end
  end.

Definition conversation_escaping (place : escape) (e : str)
    (model : SentenceTransformer) (conn : connection) (client : Groq)
    (ui : widgets) : M unit :=
  emit st_divider;;
  init_messages;;
  history <- get_messages;;
  show_history history;;
  match chat_input ui with
  | Some (c :: q) =>
    handle_question_escaping place e model conn client (top_k_slider ui)
      (temperature_slider ui) (max_tokens_slider ui) (c :: q)
  | _ => ret tt
  end;;
  clear_history (clear_button ui).

Definition main_escaping (place : escape) (e : str) (env : environment)
    (ui : widgets) : M unit :=
  draw_page;;
  model <- load_embedding_model env;;
  conn <- get_db_connection env;;
  client <- get_groq_client env;;
  match conn, client with
  | Some conn, Some client =>
    show_dialogue_count conn;;
    conversation_escaping place e model conn client ui
  | _, _ =>
    emit (st_error (lit "Impossible d'initialiser le système. Vérifiez votre configuration."))
  end.

(** A run of the script: to its end, or ended by an exception that
    escapes while a question is handled. *)
Inductive run :=
| finished (env : environment) (ui : widgets)
| escaped (place : escape) (e : str) (env : environment) (ui : widgets).

Definition run_once (r : run) : M unit :=
  match r with
  | finished env ui => main env ui
  | escaped place e env ui => main_escaping place e env ui
  end.

Fixpoint run_session_with_escapes (runs : list run) (w : world) : world :=
  match runs with
  | [] => w
  | r :: rest => run_session_with_escapes rest (snd (run_once r w))
  end.

(** ** Properties *)

Arguments lit : simpl never.
Arguments prompt_of : simpl never.
Arguments preview : simpl never.
Arguments context_of : simpl never.
Arguments show_sources : simpl never.

(** *** The monad and the log *)

Lemma logged_nil (w : world) : logged w [] = w.
Proof.
  destruct w as [ms l]. unfold logged. cbn. now rewrite app_nil_r.
Qed.

Lemma logged_app (w : world) (a b : list event) :
  logged (logged w a) b = logged w (a ++ b).
Proof.
  unfold logged. cbn. now rewrite app_assoc.
Qed.

Lemma logs_ret {A} (a : A) : logs (ret a) a [].
Proof.
  intros w. unfold ret. now rewrite logged_nil.
Qed.

Lemma logs_emit (e : event) : logs (emit e) tt [e].
Proof.
  intros w. reflexivity.
Qed.

Lemma logs_lift {A} (o : outcome A) (a : A) : o = Ok a -> logs (lift o) a [].
Proof.
  intros -> w. unfold lift. now rewrite logged_nil.
Qed.

Lemma logs_bind {A B} (m : M A) (k : A -> M B) a b evs1 evs2 :
  logs m a evs1 -> logs (k a) b evs2 -> logs (bind m k) b (evs1 ++ evs2).
Proof.
  intros Hm Hk w. unfold bind. rewrite Hm, Hk. now rewrite logged_app.
Qed.

Lemma logs_try_ok {A} (m : M A) (h : str -> M A) a evs :
  logs m a evs -> logs (try_except m h) a evs.
Proof.
  intros Hm w. unfold try_except. now rewrite Hm.
Qed.

Lemma logs_try_raise {A} (m : M A) (h : str -> M A) e a evs1 evs2 :
  (forall w, m w = (Raise e, logged w evs1)) ->
  logs (h e) a evs2 ->
  logs (try_except m h) a (evs1 ++ evs2).
Proof.
  intros Hm Hh w. unfold try_except. rewrite Hm, Hh. now rewrite logged_app.
Qed.

(** A chain of drawings returns [tt] with the drawings in order. *)
Ltac logs_steps :=
  repeat (eapply logs_bind; [apply logs_emit|]);
  first [apply logs_emit | apply logs_ret].

Lemma no_call_no_create (evs : list event) :
  filter is_external_call evs = [] -> filter is_create evs = [].
Proof.
  induction evs as [|x evs IH]; [reflexivity|].
  cbn. destruct x; cbn; try discriminate; auto.
Qed.

(** *** Search *)

Lemma search_encode_raises query model conn top_k e :
  encode model query = Raise e ->
  logs (search_similar_dialogues query model conn top_k) []
       [call_encode query; st_error (lit "Erreur lors de la recherche: " ++ e)].
Proof.
  intros He w.
  unfold search_similar_dialogues, try_except, bind, lift, emit, ret, logged.
  cbn. rewrite He. cbn. now rewrite <- app_assoc.
Qed.

Lemma search_execute_raises query model conn top_k v e :
  encode model query = Ok v ->
  search_error conn v top_k = Some e ->
  logs (search_similar_dialogues query model conn top_k) []
       [call_encode query; call_search v top_k;
        st_error (lit "Erreur lors de la recherche: " ++ e)].
Proof.
  intros He Hs w.
  unfold search_similar_dialogues, execute_search, try_except, bind, lift,
    emit, ret, raise, logged.
  cbn. rewrite He. cbn. rewrite Hs. cbn. now rewrite <- !app_assoc.
Qed.

Lemma search_negative_limit query model conn top_k v :
  encode model query = Ok v ->
  search_error conn v top_k = None ->
  (top_k < 0)%Z ->
  logs (search_similar_dialogues query model conn top_k) []
       [call_encode query; call_search v top_k;
        st_error (lit "Erreur lors de la recherche: " ++ lit "LIMIT must not be negative")].
Proof.
  intros He Hs Hk w.
  unfold search_similar_dialogues, execute_search, try_except, bind, lift,
    emit, ret, raise, logged.
  cbn. rewrite He. cbn. rewrite Hs.
  apply Z.ltb_lt in Hk. rewrite Hk. cbn. now rewrite <- !app_assoc.
Qed.

Lemma search_fetches query model conn top_k v :
  encode model query = Ok v ->
  search_error conn v top_k = None ->
  (0 <= top_k)%Z ->
  logs (search_similar_dialogues query model conn top_k)
       (select_similar (dialogues conn) v top_k)
       [call_encode query; call_search v top_k].
Proof.
  intros He Hs Hk w.
  unfold search_similar_dialogues, execute_search, try_except, bind, lift,
    emit, ret, raise, logged.
  cbn. rewrite He. cbn. rewrite Hs.
  apply Z.ltb_ge in Hk. rewrite Hk. cbn. now rewrite <- !app_assoc.
Qed.

(** Whatever [Exception] its collaborators raise,
    [search_similar_dialogues] returns rows and only appends to the log;
    it asks the embedding model once and never the chat model. *)
Lemma search_logs query model conn top_k :
  exists results evs,
    logs (search_similar_dialogues query model conn top_k) results evs /\
    filter is_encode evs = [call_encode query] /\
    filter is_create evs = [].
Proof.
  destruct (encode model query) as [v|e] eqn:He.
  - destruct (search_error conn v top_k) as [e|] eqn:Hs.
    + eexists _, _. split; [eapply search_execute_raises; eauto|now split].
    + destruct (Z.ltb_spec top_k 0).
      * eexists _, _. split; [eapply search_negative_limit; eauto|now split].
      * eexists _, _. split; [eapply search_fetches; eauto|now split].
  - eexists _, _. split; [eapply search_encode_raises; eauto|now split].
Qed.

(** *** Generation *)

Lemma generate_returns question context client temperature max_tokens content :
  create client (prompt_of question context) temperature max_tokens = Ok content ->
  logs (generate_response question context client temperature max_tokens) content
       [call_create (prompt_of question context) temperature max_tokens].
Proof.
  intros Hc w.
  unfold generate_response, try_except, bind, lift, emit, ret, logged.
  cbn. now rewrite Hc.
Qed.

Lemma generate_catches question context client temperature max_tokens e :
  create client (prompt_of question context) temperature max_tokens = Raise e ->
  logs (generate_response question context client temperature max_tokens)
       (lit "Erreur lors de la génération: " ++ e)
       [call_create (prompt_of question context) temperature max_tokens].
Proof.
  intros Hc w.
  unfold generate_response, try_except, bind, lift, emit, ret, logged.
  cbn. now rewrite Hc.
Qed.

Lemma generate_logs question context client temperature max_tokens :
  exists response,
    logs (generate_response question context client temperature max_tokens) response
         [call_create (prompt_of question context) temperature max_tokens].
Proof.
  destruct (create client (prompt_of question context) temperature max_tokens)
    as [content|e] eqn:Hc.
  - eauto using generate_returns.
  - eauto using generate_catches.
Qed.

(** *** Sources *)

Lemma show_sources_from_logs i sources :
  exists evs,
    logs (show_sources_from i sources) tt evs /\
    filter is_text evs = map (fun r => st_text (preview (text r))) sources /\
    filter is_external_call evs = [] /\
    filter is_error evs = [].
Proof.
  revert i. induction sources as [|r rest IH]; intros i.
  - exists []. split; [apply logs_ret | now repeat split].
  - destruct (IH (S i)) as (evs & Hl & Ht & Hc & He).
    exists ([source_heading i (similarity r);
             st_markdown (lit "*ID: " ++ dialogue_id r ++ lit "*");
             st_text (preview (text r));
             st_divider] ++ evs).
    split; [|split; [|split]].
    + intros w. cbn [show_sources_from].
      unfold bind, emit at 1 2 3 4. rewrite Hl. unfold logged. cbn.
      now rewrite <- !app_assoc.
    + cbn. now rewrite Ht.
    + cbn. exact Hc.
    + cbn. exact He.
Qed.

(** *** One question *)

Lemma handle_question_no_results model conn client top_k temperature max_tokens
    question t w sevs :
  messages w = Some t ->
  logs (search_similar_dialogues question model conn top_k) [] sevs ->
  handle_question model conn client top_k temperature max_tokens question w =
  (Ok tt,
   {| messages := Some (t ++ [user_turn question;
                             assistant_turn no_results_message []]);
      log := log w ++ st_markdown question :: sevs
                   ++ [st_markdown no_results_message] |}).
Proof.
  intros Hm Hs.
  unfold handle_question, append_message, get_messages, set_messages.
  unfold bind at 1 2. rewrite Hm. cbn.
  unfold bind at 1. unfold try_except at 1. rewrite Hs.
  unfold bind, emit, ret, logged. cbn. rewrite <- !app_assoc. cbn.
  reflexivity.
Qed.


Lemma handle_question_results model conn client top_k temperature max_tokens
    question t w sevs r rs response gevs src :
  messages w = Some t ->
  logs (search_similar_dialogues question model conn top_k) (r :: rs) sevs ->
  logs (generate_response question (context_of (r :: rs)) client temperature max_tokens)
       response gevs ->
  logs (show_sources (r :: rs)) tt src ->
  handle_question model conn client top_k temperature max_tokens question w =
  (Ok tt,
   {| messages := Some (t ++ [user_turn question; assistant_turn response (r :: rs)]);
      log := log w ++ st_markdown question :: sevs ++ gevs
                   ++ st_markdown response :: src |}).
Proof.
  intros Hm Hs Hg Hsrc.
  unfold handle_question, append_message, get_messages, set_messages.
  unfold bind at 1 2. rewrite Hm. cbn.
  unfold bind at 1. unfold try_except at 1. rewrite Hs.
  unfold bind at 1 2. rewrite Hg.
  unfold bind at 1. unfold emit at 1. cbn.
  unfold bind at 1. rewrite Hsrc.
  unfold bind, ret, logged. cbn. rewrite <- !app_assoc. cbn.
  reflexivity.
Qed.

(** Whatever the collaborators return or raise as an [Exception], a
    question appends its user turn and one assistant turn, and the run
    ends normally. *)
Lemma handle_question_appends model conn client top_k temperature max_tokens
    question t w :
  messages w = Some t ->
  exists response sources evs,
    handle_question model conn client top_k temperature max_tokens question w =
    (Ok tt,
     {| messages := Some (t ++ [user_turn question; assistant_turn response sources]);
        log := log w ++ evs |}).
Proof.
  intros Hm.
  destruct (search_logs question model conn top_k) as (results & sevs & Hs & _).
  destruct results as [|r rs].
  - eexists _, _, _. eapply handle_question_no_results; eauto.
  - destruct (generate_logs question (context_of (r :: rs)) client temperature max_tokens)
      as (response & Hg).
    destruct (show_sources_from_logs 1 (r :: rs)) as (src & Hsrc & _).
    eexists _, _, _. eapply handle_question_results; eauto.
Qed.

(** C1. When the search of a question returns no row, the chat model is
    not called: the run draws the fixed message "Désolé, je n'ai pas
    trouvé de dialogues pertinents ..." and appends, after the user turn,
    an assistant turn with that message and an empty list of sources. *)
Theorem no_results_skips_generation :
  forall model conn client top_k temperature max_tokens question t w w0,
    messages w = Some t ->
    fst (search_similar_dialogues question model conn top_k w0) = Ok [] ->
    exists w' evs,
      handle_question model conn client top_k temperature max_tokens question w
        = (Ok tt, w') /\
      messages w' = Some (t ++ [user_turn question;
                                assistant_turn no_results_message []]) /\
      log w' = log w ++ evs /\
      filter is_create evs = [] /\
      last evs st_divider = st_markdown no_results_message.
Proof.
  intros model conn client top_k temperature max_tokens question t w w0 Hm H0.
  destruct (search_logs question model conn top_k) as (results & sevs & Hs & _ & Hc).
  rewrite Hs in H0. cbn in H0. injection H0 as ->.
  eexists _, _. split; [|split; [|split; [|split]]].
  - eapply handle_question_no_results; eauto.
  - reflexivity.
  - reflexivity.
  - cbn. rewrite filter_app, Hc. reflexivity.
  - change (st_markdown question :: sevs ++ [st_markdown no_results_message])
      with ((st_markdown question :: sevs) ++ [st_markdown no_results_message]).
    apply last_last.
Qed.


(** *** The context *)

Lemma join_cons sep p q rest :
  join sep (p :: q :: rest) = p ++ sep ++ join sep (q :: rest).
Proof. reflexivity. Qed.

Lemma join_app sep p1 l1 p2 l2 :
  join sep ((p1 :: l1) ++ p2 :: l2) =
  join sep (p1 :: l1) ++ sep ++ join sep (p2 :: l2).
Proof.
  revert p1. induction l1 as [|q l1 IH]; intros p1.
  - reflexivity.
  - change ((p1 :: q :: l1) ++ p2 :: l2) with (p1 :: (q :: l1) ++ p2 :: l2).
    cbn [app]. rewrite !join_cons.
    change (q :: l1 ++ p2 :: l2) with ((q :: l1) ++ p2 :: l2).
    rewrite IH. now rewrite <- !app_assoc.
Qed.

(** C3. The context given to the chat model is the [text] of the rows, in
    the order of the rows, with exactly the two characters "\n\n" between
    two consecutive texts: one row gives its text, two non-empty runs of
    rows give their contexts around one separator, the texts "A" and "B"
    give "A\n\nB"; and the only call to the chat model made for a question
    with rows carries the prompt built on that context. *)
Theorem context_is_joined_contents :
  (forall r, context_of [r] = text r) /\
  (forall r1 rs1 r2 rs2,
     context_of ((r1 :: rs1) ++ r2 :: rs2) =
     context_of (r1 :: rs1) ++ [10; 10]%N ++ context_of (r2 :: rs2)) /\
  (forall a b, text a = lit "A" -> text b = lit "B" ->
     context_of [a; b] = lit "A

B") /\
  (forall model conn client top_k temperature max_tokens question t w w0 r rs,
     messages w = Some t ->
     fst (search_similar_dialogues question model conn top_k w0) = Ok (r :: rs) ->
     exists w' evs,
       handle_question model conn client top_k temperature max_tokens question w
         = (Ok tt, w') /\
       log w' = log w ++ evs /\
       filter is_create evs =
         [call_create (prompt_of question (context_of (r :: rs))) temperature max_tokens]).
Proof.
  split; [|split; [|split]].
  - reflexivity.
  - intros. unfold context_of. rewrite map_app. cbn [map]. apply join_app.
  - intros a b Ha Hb. unfold context_of. cbn [map join]. rewrite Ha, Hb.
    reflexivity.
  - intros model conn client top_k temperature max_tokens question t w w0 r rs Hm H0.
    destruct (search_logs question model conn top_k) as (results & sevs & Hs & _ & Hc).
    rewrite Hs in H0. cbn in H0. injection H0 as ->.
    destruct (generate_logs question (context_of (r :: rs)) client temperature max_tokens)
      as (response & Hg).
    destruct (show_sources_from_logs 1 (r :: rs)) as (src & Hsrc & _ & Hx & _).
    eexists _, _. split; [|split].
    + eapply handle_question_results; eauto.
    + reflexivity.
    + cbn. rewrite filter_app, Hc. cbn.
      now rewrite (no_call_no_create _ Hx).
Qed.


(** *** Failures of the collaborators *)

(** C4. [generate_response] never raises.  When the call to the chat
    model raises [e], it returns "Erreur lors de la génération: " followed
    by [e], and the run of the question draws that string as the answer
    and stores it as the content of the assistant turn, next to the
    sources, with nothing else telling it apart from an answer. *)
Theorem generation_error_becomes_answer :
  forall question client temperature max_tokens,
    (forall context w, exists response w',
        generate_response question context client temperature max_tokens w
          = (Ok response, w')) /\
    (forall context e,
        create client (prompt_of question context) temperature max_tokens = Raise e ->
        logs (generate_response question context client temperature max_tokens)
             (lit "Erreur lors de la génération: " ++ e)
             [call_create (prompt_of question context) temperature max_tokens]) /\
    (forall model conn top_k t w w0 r rs e,
        messages w = Some t ->
        fst (search_similar_dialogues question model conn top_k w0) = Ok (r :: rs) ->
        create client (prompt_of question (context_of (r :: rs))) temperature max_tokens
          = Raise e ->
        exists w' evs,
          handle_question model conn client top_k temperature max_tokens question w
            = (Ok tt, w') /\
          messages w' =
            Some (t ++ [user_turn question;
                        assistant_turn (lit "Erreur lors de la génération: " ++ e)
                                       (r :: rs)]) /\
          log w' = log w ++ evs /\
          In (st_markdown (lit "Erreur lors de la génération: " ++ e)) evs /\
          filter is_error evs = []).
Proof.
  intros question client temperature max_tokens. split; [|split].
  - intros context w.
    destruct (generate_logs question context client temperature max_tokens)
      as (response & Hg).
    exists response, (logged w [call_create (prompt_of question context)
                                  temperature max_tokens]).
    apply Hg.
  - intros context e He. now apply generate_catches.
  - intros model conn top_k t w w0 r rs e Hm H0 He.
    destruct (encode model question) as [v|ee] eqn:Hen.
    2:{ rewrite (search_encode_raises _ _ conn top_k _ Hen) in H0. discriminate. }
    destruct (search_error conn v top_k) as [se|] eqn:Hse.
    { rewrite (search_execute_raises _ _ _ _ _ _ Hen Hse) in H0. discriminate. }
    destruct (Z.ltb_spec top_k 0) as [Hk|Hk].
    { rewrite (search_negative_limit _ _ _ _ _ Hen Hse Hk) in H0. discriminate. }
    pose proof (search_fetches _ _ _ _ _ Hen Hse Hk) as Hs.
    rewrite Hs in H0. cbn in H0. injection H0 as H0. rewrite H0 in Hs.
    destruct (show_sources_from_logs 1 (r :: rs)) as (src & Hsrc & _ & _ & Hx).
    eexists _, _. split; [|split; [|split; [|split]]].
    + eapply handle_question_results; eauto using generate_catches.
    + reflexivity.
    + reflexivity.
    + cbn. right. right. right. right. now left.
    + cbn. exact Hx.
Qed.


(** C5. When executing the search statement raises [e], the exception
    stops inside [search_similar_dialogues]: the error is drawn with
    [st.error], the search returns no row, and the run of the question
    ends normally on the branch without results, the chat model not
    called. *)
Theorem search_failure_degrades :
  forall model conn client top_k temperature max_tokens question v e t w,
    encode model question = Ok v ->
    search_error conn v top_k = Some e ->
    messages w = Some t ->
    logs (search_similar_dialogues question model conn top_k) []
         [call_encode question; call_search v top_k;
          st_error (lit "Erreur lors de la recherche: " ++ e)] /\
    exists w' evs,
      handle_question model conn client top_k temperature max_tokens question w
        = (Ok tt, w') /\
      messages w' = Some (t ++ [user_turn question;
                                assistant_turn no_results_message []]) /\
      log w' = log w ++ evs /\
      In (st_error (lit "Erreur lors de la recherche: " ++ e)) evs /\
      In (st_markdown no_results_message) evs /\
      filter is_create evs = [].
Proof.
  intros model conn client top_k temperature max_tokens question v e t w He Hs Hm.
  pose proof (search_execute_raises _ _ _ _ _ _ He Hs) as Hl.
  split; [exact Hl|].
  eexists _, _. split; [|split; [|split; [|split; [|split]]]].
  - eapply handle_question_no_results; eauto.
  - reflexivity.
  - reflexivity.
  - cbn. tauto.
  - cbn. tauto.
  - reflexivity.
Qed.

(** C6, as the script has it.  When [model.encode] raises [e], the
    exception is caught by the [try] of [search_similar_dialogues] like
    any failure of the search: the model is asked once, the database and
    the chat model are not called, the error is drawn with [st.error], and
    the run ends normally with the assistant turn of a search without
    results. *)
Theorem embedding_failure_is_no_results :
  forall model conn client top_k temperature max_tokens question e t w,
    encode model question = Raise e ->
    messages w = Some t ->
    handle_question model conn client top_k temperature max_tokens question w =
    (Ok tt,
     {| messages := Some (t ++ [user_turn question;
                               assistant_turn no_results_message []]);
        log := log w ++ [st_markdown question;
                         call_encode question;
                         st_error (lit "Erreur lors de la recherche: " ++ e);
                         st_markdown no_results_message] |}).
Proof.
  intros model conn client top_k temperature max_tokens question e t w He Hm.
  pose proof (search_encode_raises _ _ conn top_k _ He) as Hl.
  now rewrite (handle_question_no_results model conn client top_k temperature
                 max_tokens question t w _ Hm Hl).
Qed.

(** *** Start of the script *)

Lemma get_groq_client_missing env :
  getenv env (lit "GROQ_API_KEY") = None ->
  logs (get_groq_client env) None
       [st_error (lit "GROQ_API_KEY non trouvée dans le fichier .env")].
Proof.
  intros Hk w. unfold get_groq_client. rewrite Hk. reflexivity.
Qed.

Lemma draw_page_logs :
  exists evs, logs draw_page tt evs /\ filter is_external_call evs = [].
Proof.
  eexists. split.
  - unfold draw_page. logs_steps.
  - reflexivity.
Qed.

Lemma get_db_connection_logs env :
  exists conn evs,
    logs (get_db_connection env) conn evs /\ filter is_external_call evs = [].
Proof.
  unfold get_db_connection.
  destruct (psycopg_connect env
              (getenv_default env (lit "DB_HOST") (lit "localhost"))
              (getenv_default env (lit "DB_PORT") (lit "5432"))
              (getenv_default env (lit "DB_NAME") (lit "rag_chatbot"))
              (getenv_default env (lit "DB_USER") (lit "postgres"))
              (getenv_default env (lit "DB_PASSWORD") [])) as [c|e] eqn:Hc.
  - exists (Some c), []. split; [|reflexivity].
    intros w. unfold try_except, bind, lift, ret.
    now rewrite logged_nil.
  - exists None,
      [st_error (lit "Erreur de connexion à la base de données: " ++ e)].
    split; [|reflexivity].
    intros w. unfold try_except, bind, lift, ret. reflexivity.
Qed.

(** C7. When [GROQ_API_KEY] is not set, [get_groq_client] draws the error
    "GROQ_API_KEY non trouvée dans le fichier .env" and returns [None];
    [main] then touches neither the transcript nor the embedding model,
    the database or the chat model, and when the embedding model loads it
    ends, before the chat input is read, on the error "Impossible
    d'initialiser le système. Vérifiez votre configuration.". *)
Theorem missing_api_key_refuses_queries :
  forall env ui w,
    getenv env (lit "GROQ_API_KEY") = None ->
    logs (get_groq_client env) None
         [st_error (lit "GROQ_API_KEY non trouvée dans le fichier .env")] /\
    (exists evs,
        snd (main env ui w) = logged w evs /\
        filter is_external_call evs = []) /\
    (forall model,
        new_SentenceTransformer env (lit "paraphrase-multilingual-MiniLM-L12-v2")
          = Ok model ->
        exists evs,
          main env ui w =
          (Ok tt,
           logged w (evs ++
             [st_error (lit "GROQ_API_KEY non trouvée dans le fichier .env");
              st_error (lit "Impossible d'initialiser le système. Vérifiez votre configuration.")]))).
Proof.
  intros env ui w Hk.
  pose proof (get_groq_client_missing env Hk) as Hg.
  destruct (get_db_connection_logs env) as (conn & cevs & Hc & Hcx).
  destruct draw_page_logs as (pevs & Hp & Hpx).
  split; [exact Hg|].
  destruct (new_SentenceTransformer env (lit "paraphrase-multilingual-MiniLM-L12-v2"))
    as [m|e] eqn:Hm.
  - assert (Hmain : logs (main env ui) tt
              ((pevs ++ cevs) ++
               [st_error (lit "GROQ_API_KEY non trouvée dans le fichier .env")] ++
               [st_error (lit "Impossible d'initialiser le système. Vérifiez votre configuration.")])).
    { rewrite <- app_assoc. unfold main.
      eapply logs_bind; [exact Hp|].
      eapply (logs_bind _ _ m _ [] _); [apply logs_lift, Hm|].
      eapply logs_bind; [exact Hc|].
      eapply logs_bind; [exact Hg|].
      destruct conn; apply logs_emit. }
    split.
    + eexists. rewrite Hmain. split; [reflexivity|].
      rewrite !filter_app, Hpx, Hcx. reflexivity.
    + intros model _. eexists. apply Hmain.
  - split.
    + exists pevs. split; [|exact Hpx].
      unfold main, load_embedding_model. unfold bind at 1. rewrite Hp.
      unfold bind, lift. rewrite Hm. reflexivity.
    + intros model Hx. discriminate.
Qed.


(** *** The conversation *)

Lemma get_groq_client_logs env :
  exists client evs, logs (get_groq_client env) client evs.
Proof.
  unfold get_groq_client.
  destruct (getenv env (lit "GROQ_API_KEY")) as [[|c key]|].
  - eexists _, _. logs_steps.
  - eexists _, _. logs_steps.
  - eexists _, _. logs_steps.
Qed.

Lemma show_dialogue_count_logs conn :
  exists evs, logs (show_dialogue_count conn) tt evs.
Proof.
  unfold show_dialogue_count. destruct (count_error conn) as [e|].
  - eexists. eapply (logs_try_raise _ _ e tt [call_count]).
    + intros w. reflexivity.
    + logs_steps.
  - eexists. apply logs_try_ok. logs_steps.
Qed.

Lemma show_history_logs l :
  exists evs, logs (show_history l) tt evs.
Proof.
  induction l as [|m rest (evs & IH)].
  - eexists. apply logs_ret.
  - cbn [show_history].
    assert (exists sevs,
               logs (match msg_sources m with
                     | Some (r :: rs) => show_sources (r :: rs)
                     | _ => ret tt
                     end) tt sevs) as (sevs & Hs).
    { destruct (msg_sources m) as [[|r rs]|].
      - eexists. apply logs_ret.
      - destruct (show_sources_from_logs 1 (r :: rs)) as (src & Hsrc & _).
        eexists. exact Hsrc.
      - eexists. apply logs_ret. }
    eexists.
    eapply logs_bind; [apply logs_emit|].
    eapply logs_bind; [exact Hs|exact IH].
Qed.

Lemma clear_history_clicked t l :
  exists evs,
    clear_history true {| messages := Some t; log := l |} =
    (Ok tt, {| messages := Some []; log := l ++ evs |}) /\
    (t = [] -> evs = []).
Proof.
  destruct t as [|m t].
  - exists []. split; [|reflexivity].
    unfold clear_history, bind, get_messages, ret. cbn. now rewrite app_nil_r.
  - exists [st_rerun]. split; [reflexivity|discriminate].
Qed.

Lemma clear_history_not_clicked t l :
  clear_history false {| messages := Some t; log := l |} =
  (Ok tt, {| messages := Some t; log := l |}).
Proof.
  destruct t; reflexivity.
Qed.

(** The conversation never raises; it leaves the transcript as it was,
    or extended by the two turns of one question, or empty. *)
Lemma conversation_runs model conn client ui w :
  exists t' evs,
    conversation model conn client ui w =
    (Ok tt, {| messages := Some t'; log := log w ++ evs |}) /\
    (t' = [] \/ t' = transcript w \/
     exists question response sources,
       t' = transcript w ++ [user_turn question; assistant_turn response sources]) /\
    (clear_button ui = true -> t' = []).
Proof.
  destruct (show_history_logs (transcript w)) as (hevs & Hh).
  set (w3 := {| messages := Some (transcript w); log := (log w ++ [st_divider]) ++ hevs |}).
  assert (H3 : conversation model conn client ui w =
             (match chat_input ui with
              | Some (c :: q) =>
                handle_question model conn client (top_k_slider ui)
                  (temperature_slider ui) (max_tokens_slider ui) (c :: q)
              | _ => ret tt
              end;; clear_history (clear_button ui)) w3).
  { unfold conversation.
    unfold bind at 1. unfold emit at 1.
    unfold bind at 1. unfold init_messages at 1. unfold transcript in *.
    destruct w as [[t|] l]; cbn [messages log set_messages].
    - unfold bind at 1. unfold get_messages at 1. cbn [messages].
      unfold bind at 1. rewrite Hh. reflexivity.
    - unfold bind at 1. unfold get_messages at 1. cbn [messages].
      unfold bind at 1. rewrite Hh. reflexivity. }
  rewrite H3. clear H3.
  assert (exists t5 qevs,
             (match chat_input ui with
              | Some (c :: q) =>
                handle_question model conn client (top_k_slider ui)
                  (temperature_slider ui) (max_tokens_slider ui) (c :: q)
              | _ => ret tt
              end) w3 = (Ok tt, {| messages := Some t5; log := log w3 ++ qevs |}) /\
             (t5 = transcript w \/
              exists question response sources,
                t5 = transcript w ++ [user_turn question;
                                      assistant_turn response sources]))
    as (t5 & qevs & H5 & Ht5).
  { destruct (chat_input ui) as [[|c q]|].
    - exists (transcript w), []. split; [|now left].
      unfold ret, w3. cbn. now rewrite app_nil_r.
    - destruct (handle_question_appends model conn client (top_k_slider ui)
                  (temperature_slider ui) (max_tokens_slider ui) (c :: q)
                  (transcript w) w3 eq_refl) as (response & sources & evs & He).
      eexists _, evs. split; [exact He|]. right. eauto.
    - exists (transcript w), []. split; [|now left].
      unfold ret, w3. cbn. now rewrite app_nil_r. }
  unfold bind. rewrite H5.
  destruct (clear_button ui).
  - destruct (clear_history_clicked t5 (log w3 ++ qevs)) as (cevs & Hc & _).
    rewrite Hc. exists [], (([st_divider] ++ hevs) ++ qevs ++ cevs).
    split; [|split; [now left|reflexivity]].
    unfold w3. cbn. now rewrite <- !app_assoc.
  - rewrite clear_history_not_clicked.
    exists t5, (([st_divider] ++ hevs) ++ qevs).
    split; [|split; [tauto|discriminate]].
    unfold w3. cbn. now rewrite <- !app_assoc.
Qed.


(** C8. Clearing gives a transcript of length 0 whatever its length was
    before; on a transcript that is already empty the button is not even
    drawn and the world is left as it is; and a run of the conversation in
    which the button is pressed ends on the empty transcript. *)
Theorem clear_yields_empty_transcript :
  (forall t l, exists w',
      clear_history true {| messages := Some t; log := l |} = (Ok tt, w') /\
      messages w' = Some [] /\
      length (transcript w') = 0) /\
  (forall l,
      clear_history true {| messages := Some []; log := l |} =
      (Ok tt, {| messages := Some []; log := l |})) /\
  (forall model conn client ui w,
      clear_button ui = true ->
      transcript (snd (conversation model conn client ui w)) = []).
Proof.
  split; [|split].
  - intros t l. destruct (clear_history_clicked t l) as (evs & Hc & _).
    eexists. split; [exact Hc|]. split; reflexivity.
  - intros l. destruct (clear_history_clicked [] l) as (evs & Hc & He).
    rewrite Hc, (He eq_refl). now rewrite app_nil_r.
  - intros model conn client ui w Hb.
    destruct (conversation_runs model conn client ui w) as (t' & evs & Hr & _ & Hc).
    rewrite Hr. cbn. unfold transcript. cbn. auto.
Qed.

(** *** The preview of a source *)

(** C9. The text drawn for a source is the stored text when it has at
    most 300 characters, and otherwise its first 300 characters followed
    by the three characters "..." (303 characters in all); it is a function
    of the stored text alone, and it is what every line of the expander
    "Dialogues sources" draws. *)
Theorem preview_truncates_at_300 :
  (forall text, length text <= 300 -> preview text = text) /\
  (forall text, 300 < length text ->
     preview text = firstn 300 text ++ [46; 46; 46]%N /\
     length (preview text) = 303) /\
  (forall i sources, exists evs,
     logs (show_sources_from i sources) tt evs /\
     filter is_text evs = map (fun r => st_text (preview (text r))) sources).
Proof.
  split; [|split].
  - intros text Hl. unfold preview.
    destruct (Nat.ltb_spec 300 (length text)); [lia|reflexivity].
  - intros text Hl. unfold preview.
    destruct (Nat.ltb_spec 300 (length text)); [|lia].
    split; [reflexivity|].
    rewrite length_app, firstn_length_le by lia. reflexivity.
  - intros i sources.
    destruct (show_sources_from_logs i sources) as (evs & Hl & Ht & _).
    eauto.
Qed.

(** *** The transcript *)

Lemma alternating_app t question response sources :
  alternating t = true ->
  alternating (t ++ [user_turn question; assistant_turn response sources]) = true.
Proof.
  assert (H : forall n t, length t <= n -> alternating t = true ->
            alternating (t ++ [user_turn question;
                               assistant_turn response sources]) = true).
  { induction n as [|n IH]; intros [|u [|a rest]] Hl Ha; cbn in *;
      try reflexivity; try discriminate; try lia.
    apply andb_true_iff in Ha as [Hua Hr]. rewrite Hua. cbn.
    apply IH; [lia|exact Hr]. }
  intros Ha. apply (H (length t)); auto.
Qed.

Lemma alternating_even t :
  alternating t = true -> Nat.even (length t) = true.
Proof.
  assert (H : forall n t, length t <= n -> alternating t = true ->
            Nat.even (length t) = true).
  { induction n as [|n IH]; intros [|u [|a rest]] Hl Ha; cbn in *;
      try reflexivity; try discriminate; try lia.
    apply andb_true_iff in Ha as [_ Hr]. apply IH; [lia|exact Hr]. }
  intros Ha. apply (H (length t)); auto.
Qed.

Lemma alternating_sources t :
  alternating t = true ->
  forall m, In m t ->
    (msg_role m = user /\ msg_sources m = None) \/
    (msg_role m = assistant /\ msg_sources m <> None).
Proof.
  assert (H : forall n t, length t <= n -> alternating t = true ->
            forall m, In m t ->
              (msg_role m = user /\ msg_sources m = None) \/
              (msg_role m = assistant /\ msg_sources m <> None)).
  { induction n as [|n IH]; intros [|u [|a rest]] Hl Ha m Hin; cbn in *;
      try contradiction; try discriminate; try lia.
    apply andb_true_iff in Ha as [Hua Hr].
    apply andb_true_iff in Hua as [Hu Hass].
    destruct Hin as [<-|[<-|Hin]].
    - left. unfold is_user_turn in Hu.
      destruct (msg_role u), (msg_sources u); try discriminate; auto.
    - right. unfold is_assistant_turn in Hass.
      destruct (msg_role a), (msg_sources a); try discriminate.
      split; [reflexivity|discriminate].
    - apply (IH rest); [lia|exact Hr|exact Hin]. }
  intros Ha. apply (H (length t)); auto.
Qed.

(** One run of the script leaves the transcript as it was, or extended by
    the two turns of one question, or empty. *)
Lemma main_transcript env ui w :
  transcript (snd (main env ui w)) = [] \/
  transcript (snd (main env ui w)) = transcript w \/
  exists question response sources,
    transcript (snd (main env ui w)) =
    transcript w ++ [user_turn question; assistant_turn response sources].
Proof.
  destruct draw_page_logs as (pevs & Hp & _).
  destruct (get_db_connection_logs env) as (conn & cevs & Hc & _).
  destruct (get_groq_client_logs env) as (client & gevs & Hg).
  remember (main env ui w) as res eqn:Hres.
  unfold main, load_embedding_model in Hres. unfold bind at 1 in Hres.
  rewrite Hp in Hres. unfold bind at 1 in Hres. unfold lift at 1 in Hres.
  destruct (new_SentenceTransformer env (lit "paraphrase-multilingual-MiniLM-L12-v2"))
    as [model|e].
  2:{ subst res. right. left. reflexivity. }
  unfold bind at 1 in Hres. rewrite Hc in Hres.
  unfold bind at 1 in Hres. rewrite Hg in Hres.
  destruct conn as [conn|]; [destruct client as [client|]|].
  - destruct (show_dialogue_count_logs conn) as (devs & Hd).
    unfold bind at 1 in Hres. rewrite Hd in Hres.
    destruct (conversation_runs model conn client ui
                (logged (logged (logged (logged w pevs) cevs) gevs) devs))
      as (t' & evs & Hr & Ht & _).
    rewrite Hr in Hres. subst res.
    unfold transcript, logged in *. cbn [snd messages] in *.
    exact Ht.
  - subst res. right. left. reflexivity.
  - subst res. right. left. destruct client; reflexivity.
Qed.

Lemma run_session_alternating runs :
  forall w, alternating (transcript w) = true ->
            alternating (transcript (run_session runs w)) = true.
Proof.
  induction runs as [|[env ui] rest IH]; intros w Hw.
  - exact Hw.
  - cbn [run_session]. apply IH.
    destruct (main_transcript env ui w) as [->|[->|(q & r & s & ->)]].
    + reflexivity.
    + exact Hw.
    + now apply alternating_app.
Qed.

(** *** Runs that an exception ends *)

Lemma handle_question_escaping_leaves_user_turn place e model conn client
    top_k temperature max_tokens question t w :
  messages w = Some t ->
  exists evs,
    handle_question_escaping place e model conn client top_k temperature
      max_tokens question w =
    (Raise e,
     {| messages := Some (t ++ [user_turn question]); log := log w ++ evs |}).
Proof.
  intros Hm.
  unfold handle_question_escaping, append_message, get_messages, set_messages.
  unfold bind at 1 2. rewrite Hm. cbn [messages log].
  destruct place.
  - exists []. unfold raise. now rewrite app_nil_r.
  - exists [st_markdown question; call_encode question].
    unfold bind, emit, raise. cbn. now rewrite <- app_assoc.
  - destruct (search_logs question model conn top_k)
      as (results & sevs & Hs & _).
    unfold bind at 1. unfold emit at 1. cbn [messages log].
    unfold bind at 1. unfold try_except at 1. rewrite Hs.
    destruct results as [|r rs].
    + exists ([st_markdown question] ++ sevs).
      unfold raise, logged. cbn. now rewrite <- app_assoc.
    + destruct (generate_logs question (context_of (r :: rs)) client temperature
                  max_tokens) as (response & Hg).
      exists ([st_markdown question] ++ sevs
              ++ [call_create (prompt_of question (context_of (r :: rs)))
                              temperature max_tokens]).
      unfold bind at 1. rewrite Hg.
      unfold raise, logged. cbn. now rewrite <- !app_assoc.
Qed.

Lemma conversation_escaping_runs place e model conn client ui w :
  exists r t' evs,
    conversation_escaping place e model conn client ui w =
    (r, {| messages := Some t'; log := log w ++ evs |}) /\
    (t' = [] \/ t' = transcript w \/
     exists question, t' = transcript w ++ [user_turn question]).
Proof.
  destruct (show_history_logs (transcript w)) as (hevs & Hh).
  set (w3 := {| messages := Some (transcript w);
                log := (log w ++ [st_divider]) ++ hevs |}).
  assert (H3 : conversation_escaping place e model conn client ui w =
             (match chat_input ui with
              | Some (c :: q) =>
                handle_question_escaping place e model conn client
                  (top_k_slider ui) (temperature_slider ui)
                  (max_tokens_slider ui) (c :: q)
              | _ => ret tt
              end;; clear_history (clear_button ui)) w3).
  { unfold conversation_escaping.
    unfold bind at 1. unfold emit at 1.
    unfold bind at 1. unfold init_messages at 1. unfold transcript in *.
    destruct w as [[t|] l]; cbn [messages log set_messages].
    - unfold bind at 1. unfold get_messages at 1. cbn [messages].
      unfold bind at 1. rewrite Hh. reflexivity.
    - unfold bind at 1. unfold get_messages at 1. cbn [messages].
      unfold bind at 1. rewrite Hh. reflexivity. }
  rewrite H3. clear H3.
  assert (Hidle : exists r t' evs,
             (ret tt;; clear_history (clear_button ui)) w3 =
             (r, {| messages := Some t'; log := log w ++ evs |}) /\
             (t' = [] \/ t' = transcript w \/
              exists question, t' = transcript w ++ [user_turn question])).
  { unfold w3, bind, ret. destruct (clear_button ui).
    - destruct (clear_history_clicked (transcript w)
                  ((log w ++ [st_divider]) ++ hevs)) as (cevs & Hc & _).
      rewrite Hc.
      exists (Ok tt), [], (([st_divider] ++ hevs) ++ cevs).
      split; [now rewrite <- !app_assoc|now left].
    - rewrite clear_history_not_clicked.
      exists (Ok tt), (transcript w), ([st_divider] ++ hevs).
      split; [now rewrite <- !app_assoc|tauto]. }
  destruct (chat_input ui) as [[|c q]|]; try exact Hidle.
  destruct (handle_question_escaping_leaves_user_turn place e model conn client
              (top_k_slider ui) (temperature_slider ui) (max_tokens_slider ui)
              (c :: q) (transcript w) w3 eq_refl) as (evs & He).
  unfold bind. rewrite He.
  exists (Raise e), (transcript w ++ [user_turn (c :: q)]),
    (([st_divider] ++ hevs) ++ evs).
  split; [unfold w3; cbn; now rewrite <- !app_assoc|].
  right. right. eauto.
Qed.

Lemma main_escaping_transcript place e env ui w :
  transcript (snd (main_escaping place e env ui w)) = [] \/
  transcript (snd (main_escaping place e env ui w)) = transcript w \/
  exists question,
    transcript (snd (main_escaping place e env ui w)) =
    transcript w ++ [user_turn question].
Proof.
  destruct draw_page_logs as (pevs & Hp & _).
  destruct (get_db_connection_logs env) as (conn & cevs & Hc & _).
  destruct (get_groq_client_logs env) as (client & gevs & Hg).
  remember (main_escaping place e env ui w) as res eqn:Hres.
  unfold main_escaping, load_embedding_model in Hres. unfold bind at 1 in Hres.
  rewrite Hp in Hres. unfold bind at 1 in Hres. unfold lift at 1 in Hres.
  destruct (new_SentenceTransformer env (lit "paraphrase-multilingual-MiniLM-L12-v2"))
    as [model|e'].
  2:{ subst res. right. left. reflexivity. }
  unfold bind at 1 in Hres. rewrite Hc in Hres.
  unfold bind at 1 in Hres. rewrite Hg in Hres.
  destruct conn as [conn|]; [destruct client as [client|]|].
  - destruct (show_dialogue_count_logs conn) as (devs & Hd).
    unfold bind at 1 in Hres. rewrite Hd in Hres.
    destruct (conversation_escaping_runs place e model conn client ui
                (logged (logged (logged (logged w pevs) cevs) gevs) devs))
      as (r & t' & evs & Hr & Ht).
    rewrite Hr in Hres. subst res.
    unfold transcript, logged in *. cbn [snd messages] in *.
    exact Ht.
  - subst res. right. left. reflexivity.
  - subst res. right. left. destruct client; reflexivity.
Qed.

Lemma user_turn_is_no_assistant_turn m :
  is_user_turn m = true -> is_assistant_turn m = false.
Proof.
  unfold is_user_turn, is_assistant_turn.
  destruct (msg_role m), (msg_sources m); congruence.
Qed.

Lemma follows_questions_pair u a rest :
  follows_questions (u :: a :: rest) =
  is_user_turn u &&
  (if is_assistant_turn a then follows_questions rest
   else follows_questions (a :: rest)).
Proof. reflexivity. Qed.

Lemma follows_questions_one u :
  follows_questions [u] = is_user_turn u.
Proof. cbn. apply andb_true_r. Qed.

Lemma follows_questions_head m t :
  follows_questions (m :: t) = true -> is_user_turn m = true.
Proof.
  destruct t as [|a t].
  - now rewrite follows_questions_one.
  - rewrite follows_questions_pair. intros H.
    now apply andb_true_iff in H as [Hm _].
Qed.

Lemma follows_questions_app t t2 :
  follows_questions t = true -> follows_questions t2 = true ->
  follows_questions (t ++ t2) = true.
Proof.
  intros Ht Ht2.
  assert (H : forall n t, length t <= n -> follows_questions t = true ->
            follows_questions (t ++ t2) = true).
  { clear t Ht. induction n as [|n IH]; intros [|u [|a rest]] Hl Ha;
      cbn [length] in Hl; try lia; try exact Ht2.
    - rewrite follows_questions_one in Ha.
      destruct t2 as [|m t2']; [cbn [app]; now rewrite follows_questions_one|].
      change ([u] ++ m :: t2') with (u :: m :: t2').
      rewrite follows_questions_pair, Ha. cbn [andb].
      pose proof (follows_questions_head m t2' Ht2) as Hm.
      now rewrite (user_turn_is_no_assistant_turn m Hm).
    - rewrite follows_questions_pair in Ha.
      apply andb_true_iff in Ha as [Hu Hr].
      change ((u :: a :: rest) ++ t2) with (u :: a :: (rest ++ t2)).
      rewrite follows_questions_pair, Hu. cbn [andb].
      destruct (is_assistant_turn a).
      + apply IH; [lia|exact Hr].
      + change (a :: rest ++ t2) with ((a :: rest) ++ t2).
        apply IH; [cbn [length]; lia|exact Hr]. }
  apply (H (length t)); auto.
Qed.

Lemma follows_questions_sources t :
  follows_questions t = true ->
  forall m, In m t ->
    (msg_role m = user /\ msg_sources m = None) \/
    (msg_role m = assistant /\ msg_sources m <> None).
Proof.
  assert (Hu : forall m, is_user_turn m = true ->
             msg_role m = user /\ msg_sources m = None).
  { intros m. unfold is_user_turn.
    destruct (msg_role m), (msg_sources m); try discriminate; auto. }
  assert (Ha : forall m, is_assistant_turn m = true ->
             msg_role m = assistant /\ msg_sources m <> None).
  { intros m. unfold is_assistant_turn.
    destruct (msg_role m), (msg_sources m); try discriminate.
    split; [reflexivity|discriminate]. }
  assert (H : forall n t, length t <= n -> follows_questions t = true ->
            forall m, In m t ->
              (msg_role m = user /\ msg_sources m = None) \/
              (msg_role m = assistant /\ msg_sources m <> None)).
  { induction n as [|n IH]; intros [|u [|a rest]] Hl Hf m Hin;
      cbn [length] in Hl; try lia; try contradiction.
    - destruct Hin as [<-|[]]. rewrite follows_questions_one in Hf. auto.
    - rewrite follows_questions_pair in Hf.
      apply andb_true_iff in Hf as [Hfu Hr].
      destruct Hin as [<-|Hin]; [auto|].
      destruct (is_assistant_turn a) eqn:Hass.
      + destruct Hin as [<-|Hin]; [auto|].
        apply (IH rest); [lia|exact Hr|exact Hin].
      + apply (IH (a :: rest)); [cbn [length]; lia|exact Hr|exact Hin]. }
  intros Hf. apply (H (length t)); auto.
Qed.

(** In such a transcript an assistant turn comes right after a user
    turn. *)
Lemma follows_questions_assistant_after_user t :
  follows_questions t = true ->
  forall before a after,
    t = before ++ a :: after -> is_assistant_turn a = true ->
    exists before' u, before = before' ++ [u] /\ is_user_turn u = true.
Proof.
  assert (H : forall n t, length t <= n -> follows_questions t = true ->
            forall before a after,
              t = before ++ a :: after -> is_assistant_turn a = true ->
              exists before' u, before = before' ++ [u] /\ is_user_turn u = true).
  { induction n as [|n IH]; intros [|u rest] Hl Hf before a after Ht Ha;
      cbn [length] in Hl; try lia.
    - destruct before; discriminate.
    - destruct before; discriminate.
    - pose proof (follows_questions_head u rest Hf) as Hu.
      destruct before as [|b before].
      + cbn in Ht. injection Ht as -> _.
        rewrite (user_turn_is_no_assistant_turn _ Hu) in Ha. discriminate.
      + cbn in Ht. injection Ht as <- Hrest.
        destruct before as [|b' before].
        * exists [], u. auto.
        * destruct rest as [|a' rest']; [discriminate|].
          cbn in Hrest. injection Hrest as -> Hrest'.
          rewrite follows_questions_pair in Hf.
          apply andb_true_iff in Hf as [_ Hr].
          destruct (is_assistant_turn b') eqn:Hb'.
          -- assert (Hlen : length rest' <= n) by (cbn [length] in Hl; lia).
             destruct (IH rest' Hlen Hr before a after Hrest' Ha)
               as (l0 & u' & -> & Hu').
             exists (u :: b' :: l0), u'. auto.
          -- assert (Hlen : length (b' :: rest') <= n) by (cbn [length] in *; lia).
             assert (Heq : b' :: rest' = (b' :: before) ++ a :: after)
               by (cbn; now rewrite Hrest').
             destruct (IH (b' :: rest') Hlen Hr (b' :: before) a after Heq Ha)
               as (l0 & u' & Hl0 & Hu').
             exists (u :: l0), u'. cbn. now rewrite Hl0. }
  intros Hf. apply (H (length t)); auto.
Qed.

Lemma run_session_with_escapes_follows runs :
  forall w, follows_questions (transcript w) = true ->
            follows_questions (transcript (run_session_with_escapes runs w)) = true.
Proof.
  induction runs as [|[env ui|place e env ui] rest IH]; intros w Hw.
  - exact Hw.
  - cbn [run_session_with_escapes run_once]. apply IH.
    destruct (main_transcript env ui w) as [->|[->|(q & r & s & ->)]].
    + reflexivity.
    + exact Hw.
    + apply follows_questions_app; [exact Hw|reflexivity].
  - cbn [run_session_with_escapes run_once]. apply IH.
    destruct (main_escaping_transcript place e env ui w) as [->|[->|(q & ->)]].
    + reflexivity.
    + exact Hw.
    + apply follows_questions_app; [exact Hw|reflexivity].
Qed.

Lemma run_session_without_escapes runs :
  forall w,
    run_session_with_escapes (map (fun p => finished (fst p) (snd p)) runs) w =
    run_session runs w.
Proof.
  induction runs as [|[env ui] rest IH]; intros w; [reflexivity|].
  cbn [map run_session_with_escapes run_once run_session fst snd]. apply IH.
Qed.

(** C10, as the script has it.  A question handled on a transcript [t]
    leaves [t] followed by its user turn and, when the run reaches line
    236, by exactly one assistant turn, whatever the search and the chat
    model return or raise as an [Exception]; when an exception escapes
    between the two [append], the user turn is left alone and the run
    raises.  So after any runs of the script from a fresh session every
    turn belongs to a question: a user turn first, every assistant turn
    right after a user turn, and the key "sources" on the assistant turns
    and on no user turn.  When no run was ended by an exception the
    transcript alternates user and assistant turns and its length is
    even. *)
Theorem transcript_follows_questions :
  (forall model conn client top_k temperature max_tokens question t w,
      messages w = Some t ->
      exists response sources w',
        handle_question model conn client top_k temperature max_tokens question w
          = (Ok tt, w') /\
        messages w' =
          Some (t ++ [user_turn question; assistant_turn response sources])) /\
  (forall place e model conn client top_k temperature max_tokens question t w,
      messages w = Some t ->
      exists w',
        handle_question_escaping place e model conn client top_k temperature
          max_tokens question w = (Raise e, w') /\
        messages w' = Some (t ++ [user_turn question])) /\
  (forall runs,
      let t := transcript (run_session_with_escapes runs fresh_session) in
      follows_questions t = true /\
      (forall m, In m t ->
         (msg_role m = user /\ msg_sources m = None) \/
         (msg_role m = assistant /\ msg_sources m <> None)) /\
      (forall before a after,
         t = before ++ a :: after -> msg_role a = assistant ->
         exists before' u, before = before' ++ [u] /\ msg_role u = user)) /\
  (forall runs,
      let t := transcript (run_session_with_escapes
                             (map (fun p => finished (fst p) (snd p)) runs)
                             fresh_session) in
      alternating t = true /\ Nat.even (length t) = true).
Proof.
  split; [|split; [|split]].
  - intros model conn client top_k temperature max_tokens question t w Hm.
    destruct (handle_question_appends model conn client top_k temperature
                max_tokens question t w Hm) as (response & sources & evs & He).
    eexists _, _, _. split; [exact He|reflexivity].
  - intros place e model conn client top_k temperature max_tokens question t w Hm.
    destruct (handle_question_escaping_leaves_user_turn place e model conn client
                top_k temperature max_tokens question t w Hm) as (evs & He).
    eexists. split; [exact He|reflexivity].
  - intros runs t.
    assert (Hf : follows_questions t = true)
      by (apply run_session_with_escapes_follows; reflexivity).
    pose proof (follows_questions_sources t Hf) as Hsrc.
    split; [exact Hf|]. split; [exact Hsrc|].
    intros before a after Ht Ha.
    assert (Hin : In a t) by (rewrite Ht; apply in_or_app; right; now left).
    assert (Hass : is_assistant_turn a = true).
    { destruct (Hsrc a Hin) as [[Hr _]|[Hr Hs]]; [congruence|].
      unfold is_assistant_turn. rewrite Hr.
      destruct (msg_sources a); [reflexivity|contradiction]. }
    destruct (follows_questions_assistant_after_user t Hf before a after Ht Hass)
      as (before' & u & Hb & Hu).
    exists before', u. split; [exact Hb|].
    unfold is_user_turn in Hu. destruct (msg_role u); [reflexivity|discriminate].
  - intros runs t. unfold t. rewrite run_session_without_escapes.
    assert (Ha : alternating (transcript (run_session runs fresh_session)) = true)
      by (apply run_session_alternating; reflexivity).
    split; [exact Ha|now apply alternating_even].
Qed.

(** *** The rows of a search *)

Lemma insert_desc_In r l x :
  In x (insert_desc r l) <-> x = r \/ In x l.
Proof.
  induction l as [|r' rest IH]; cbn.
  - intuition auto.
  - destruct (Qle_bool (similarity r') (similarity r)); cbn.
    + intuition auto.
    + rewrite IH. intuition auto.
Qed.

Lemma insert_desc_sorted r l :
  StronglySorted similarity_ge l -> StronglySorted similarity_ge (insert_desc r l).
Proof.
  induction 1 as [|r' rest Hs IH Hall]; cbn.
  - constructor; constructor.
  - destruct (Qle_bool (similarity r') (similarity r)) eqn:Hle.
    + apply Qle_bool_iff in Hle.
      constructor; [constructor; assumption|].
      constructor; [exact Hle|].
      rewrite Forall_forall in *. intros x Hx.
      unfold similarity_ge in *. specialize (Hall x Hx). lra.
    + assert (Hlt : (similarity r < similarity r')%Q).
      { apply Qnot_le_lt. intros Hc. apply Qle_bool_iff in Hc. congruence. }
      constructor; [exact IH|].
      rewrite Forall_forall in *. intros x Hx.
      apply insert_desc_In in Hx as [->|Hx].
      * unfold similarity_ge. lra.
      * auto.
Qed.

Lemma order_by_similarity_desc_sorted l :
  StronglySorted similarity_ge (order_by_similarity_desc l).
Proof.
  induction l as [|r l IH]; cbn.
  - constructor.
  - now apply insert_desc_sorted.
Qed.

Lemma order_by_similarity_desc_In l x :
  In x (order_by_similarity_desc l) <-> In x l.
Proof.
  induction l as [|r l IH]; cbn.
  - tauto.
  - rewrite insert_desc_In, IH. intuition auto.
Qed.

Lemma firstn_In {A} n (l : list A) x : In x (firstn n l) -> In x l.
Proof.
  revert n. induction l as [|a l IH]; intros [|n]; cbn; try tauto.
  intros [->|Hx]; eauto.
Qed.

Lemma firstn_sorted {A} (R : A -> A -> Prop) n l :
  StronglySorted R l -> StronglySorted R (firstn n l).
Proof.
  intros Hs. revert n. induction Hs as [|a l Hs IH Hall]; intros [|n]; cbn;
    try constructor.
  - apply IH.
  - rewrite Forall_forall in *. intros x Hx. eauto using firstn_In.
Qed.

Lemma select_similar_In table v top_k r :
  In r (select_similar table v top_k) ->
  exists d, In d table /\ r = with_similarity v d.
Proof.
  unfold select_similar. intros Hr.
  apply firstn_In, order_by_similarity_desc_In, in_map_iff in Hr.
  destruct Hr as (d & <- & Hd). eauto.
Qed.

(** C2, as the script has it.  For a positive [top_k] the search returns
    at most [top_k] rows, ordered by similarity, descending.  The
    similarity of a row is one minus the cosine distance between the
    embedding of a stored dialogue and the embedding of the question: it
    lies in [-1,1] when these distances lie in [0,2], and in [0,1] only
    when they are at most 1. *)
Theorem search_returns_sorted_top_k :
  forall query model conn top_k,
    (0 < top_k)%Z ->
    exists results evs,
      logs (search_similar_dialogues query model conn top_k) results evs /\
      (Z.of_nat (length results) <= top_k)%Z /\
      StronglySorted similarity_ge results /\
      (forall r, In r results ->
         exists d v,
           In d (dialogues conn) /\
           encode model query = Ok v /\
           similarity r = (1 - cosine_distance (rec_embedding d) v)%Q) /\
      (forall hi,
         (forall d v, In d (dialogues conn) -> encode model query = Ok v ->
                      (0 <= cosine_distance (rec_embedding d) v <= hi)%Q) ->
         forall r, In r results -> (1 - hi <= similarity r <= 1)%Q).
Proof.
  intros query model conn top_k Hk.
  assert (Hempty :
    forall evs, logs (search_similar_dialogues query model conn top_k) [] evs ->
    exists results evs,
      logs (search_similar_dialogues query model conn top_k) results evs /\
      (Z.of_nat (length results) <= top_k)%Z /\
      StronglySorted similarity_ge results /\
      (forall r, In r results ->
         exists d v,
           In d (dialogues conn) /\
           encode model query = Ok v /\
           similarity r = (1 - cosine_distance (rec_embedding d) v)%Q) /\
      (forall hi,
         (forall d v, In d (dialogues conn) -> encode model query = Ok v ->
                      (0 <= cosine_distance (rec_embedding d) v <= hi)%Q) ->
         forall r, In r results -> (1 - hi <= similarity r <= 1)%Q)).
  { intros evs Hl. exists [], evs. split; [exact Hl|].
    split; [cbn; lia|]. split; [constructor|].
    split; [intros r []|intros hi _ r []]. }
  destruct (encode model query) as [v|e] eqn:He.
  2:{ eapply Hempty, search_encode_raises, He. }
  destruct (search_error conn v top_k) as [e|] eqn:Hs.
  { eapply Hempty, search_execute_raises; eauto. }
  clear Hempty.
  exists (select_similar (dialogues conn) v top_k), [call_encode query; call_search v top_k].
  split; [apply search_fetches; auto; lia|].
  assert (Hin : forall r, In r (select_similar (dialogues conn) v top_k) ->
            exists d, In d (dialogues conn) /\
              similarity r = (1 - cosine_distance (rec_embedding d) v)%Q).
  { intros r Hr. apply select_similar_In in Hr as (d & Hd & ->). eauto. }
  split; [|split; [|split]].
  - unfold select_similar.
    pose proof (firstn_le_length (Z.to_nat top_k)
                  (order_by_similarity_desc
                     (map (with_similarity v) (dialogues conn)))).
    lia.
  - apply firstn_sorted, order_by_similarity_desc_sorted.
  - intros r Hr. destruct (Hin r Hr) as (d & Hd & Hsim). eauto.
  - intros hi Hd r Hr. destruct (Hin r Hr) as (d & Hdin & ->).
    specialize (Hd d v Hdin eq_refl). lra.
Qed.

(** ** Further properties of the script *)

(** *** What a search returns *)

Lemma insert_desc_length r l : length (insert_desc r l) = S (length l).
Proof.
  induction l as [|r' rest IH]; cbn; [reflexivity|].
  destruct (Qle_bool (similarity r') (similarity r)); cbn; congruence.
Qed.

Lemma order_by_similarity_desc_length l :
  length (order_by_similarity_desc l) = length l.
Proof.
  unfold order_by_similarity_desc.
  induction l as [|r l IH]; cbn; [reflexivity|].
  now rewrite insert_desc_length, IH.
Qed.

Lemma insert_desc_perm r l : Permutation (insert_desc r l) (r :: l).
Proof.
  induction l as [|r' rest IH]; cbn; [reflexivity|].
  destruct (Qle_bool (similarity r') (similarity r)); [reflexivity|].
  rewrite IH. apply perm_swap.
Qed.

Lemma order_by_similarity_desc_perm l :
  Permutation (order_by_similarity_desc l) l.
Proof.
  unfold order_by_similarity_desc.
  induction l as [|r l IH]; cbn; [reflexivity|].
  rewrite insert_desc_perm. now apply perm_skip.
Qed.

Lemma sorted_app_ge (a b : list row) :
  StronglySorted similarity_ge (a ++ b) ->
  forall x y, In x a -> In y b -> similarity_ge x y.
Proof.
  induction a as [|x0 a IH]; cbn; intros Hs x y Hx Hy; [contradiction|].
  inversion Hs as [|? ? Hs' Hall]; subst.
  destruct Hx as [<-|Hx].
  - rewrite Forall_forall in Hall. apply Hall, in_or_app. now right.
  - eapply IH; eauto.
Qed.

(** X2. When the embedding and the statement succeed and [top_k] is not
    negative, the search returns exactly [min top_k n] rows, [n] being the
    number of stored dialogues: all of them when the table is smaller than
    [top_k], none when [top_k] is 0. *)
Theorem search_returns_min_rows :
  forall query model conn top_k v,
    encode model query = Ok v ->
    search_error conn v top_k = None ->
    (0 <= top_k)%Z ->
    exists results,
      logs (search_similar_dialogues query model conn top_k) results
           [call_encode query; call_search v top_k] /\
      length results = Nat.min (Z.to_nat top_k) (length (dialogues conn)).
Proof.
  intros query model conn top_k v He Hs Hk.
  exists (select_similar (dialogues conn) v top_k).
  split; [now apply search_fetches|].
  unfold select_similar.
  now rewrite length_firstn, order_by_similarity_desc_length, length_map.
Qed.

(** X3. The rows returned are the most similar ones and nothing else: the
    rows returned and the rows left out are together the stored dialogues,
    each once with its own id, dialogue id, text and similarity, and no row
    left out is more similar to the question than a row returned. *)
Theorem search_keeps_most_similar :
  forall query model conn top_k v,
    encode model query = Ok v ->
    search_error conn v top_k = None ->
    (0 <= top_k)%Z ->
    exists results left_out,
      logs (search_similar_dialogues query model conn top_k) results
           [call_encode query; call_search v top_k] /\
      Permutation (results ++ left_out)
                  (map (with_similarity v) (dialogues conn)) /\
      (forall r r', In r results -> In r' left_out ->
                    (similarity r' <= similarity r)%Q).
Proof.
  intros query model conn top_k v He Hs Hk.
  set (ordered := order_by_similarity_desc
                    (map (with_similarity v) (dialogues conn))).
  exists (firstn (Z.to_nat top_k) ordered), (skipn (Z.to_nat top_k) ordered).
  split; [now apply search_fetches|]. split.
  - rewrite firstn_skipn. apply order_by_similarity_desc_perm.
  - intros r r' Hr Hr'.
    apply (sorted_app_ge (firstn (Z.to_nat top_k) ordered)
                         (skipn (Z.to_nat top_k) ordered)); auto.
    rewrite firstn_skipn. apply order_by_similarity_desc_sorted.
Qed.

(** *** What one question does *)

Lemma filter_drawing_id (l : list event) :
  filter is_external_call l = [] -> filter is_error l = [] ->
  filter is_drawing l = l.
Proof.
  induction l as [|x l IH]; cbn; [reflexivity|].
  unfold is_drawing at 1.
  destruct (is_external_call x); [discriminate|].
  destruct (is_error x); [discriminate|].
  cbn. intros Hc He. now rewrite IH.
Qed.

Lemma search_trace query model conn top_k :
  exists results evs,
    logs (search_similar_dialogues query model conn top_k) results evs /\
    filter is_encode evs = [call_encode query] /\
    filter is_create evs = [] /\
    length (filter is_search evs) <= 1 /\
    filter is_drawing evs = [].
Proof.
  destruct (encode model query) as [v|e] eqn:He.
  - destruct (search_error conn v top_k) as [e|] eqn:Hs.
    + eexists _, _. split; [eapply search_execute_raises; eauto|].
      cbn. repeat split; lia.
    + destruct (Z.ltb_spec top_k 0).
      * eexists _, _. split; [eapply search_negative_limit; eauto|].
        cbn. repeat split; lia.
      * eexists _, _. split; [eapply search_fetches; eauto|].
        cbn. repeat split; lia.
  - eexists _, _. split; [eapply search_encode_raises; eauto|].
    cbn. repeat split; lia.
Qed.

Lemma show_history_two_turns question response sources src :
  logs (show_sources sources) tt src ->
  logs (show_history [user_turn question; assistant_turn response sources]) tt
       (st_markdown question :: st_markdown response :: src).
Proof.
  intros Hsrc. cbn [show_history user_turn assistant_turn msg_content msg_sources].
  replace (st_markdown question :: st_markdown response :: src)
    with ([st_markdown question] ++ [] ++ [st_markdown response] ++ src ++ [])
    by (cbn; now rewrite app_nil_r).
  eapply logs_bind; [apply logs_emit|].
  eapply logs_bind; [apply logs_ret|].
  eapply logs_bind; [apply logs_emit|].
  eapply logs_bind; [|apply logs_ret].
  destruct sources as [|r rs]; [|exact Hsrc].
  intros w. rewrite <- (Hsrc w). reflexivity.
Qed.

(** The run of a question, whatever the world it starts in: the answer,
    the sources and what is drawn depend on the question and on the
    collaborators only. *)
Lemma handle_question_trace model conn client top_k temperature max_tokens
    question :
  exists response sources evs src,
    (forall t w, messages w = Some t ->
       handle_question model conn client top_k temperature max_tokens question w =
       (Ok tt,
        {| messages := Some (t ++ [user_turn question;
                                  assistant_turn response sources]);
           log := log w ++ evs |})) /\
    logs (show_sources sources) tt src /\
    filter is_encode evs = [call_encode question] /\
    length (filter is_search evs) <= 1 /\
    filter is_create evs =
      match sources with
      | [] => []
      | _ :: _ => [call_create (prompt_of question (context_of sources))
                               temperature max_tokens]
      end /\
    filter is_drawing evs = st_markdown question :: st_markdown response :: src.
Proof.
  destruct (search_trace question model conn top_k)
    as (results & sevs & Hs & Henc & Hcre & Hsea & Hdraw).
  destruct results as [|r rs].
  - exists no_results_message, [],
      (st_markdown question :: sevs ++ [st_markdown no_results_message]), [].
    split; [|split; [|split; [|split; [|split]]]].
    + intros t w Hm. now apply handle_question_no_results.
    + intros w. unfold show_sources. cbn. unfold ret. now rewrite logged_nil.
    + cbn. rewrite filter_app, Henc. reflexivity.
    + cbn. rewrite filter_app, length_app. cbn. lia.
    + cbn. rewrite filter_app, Hcre. reflexivity.
    + cbn. rewrite filter_app, Hdraw. reflexivity.
  - destruct (generate_logs question (context_of (r :: rs)) client temperature
                max_tokens) as (response & Hg).
    destruct (show_sources_from_logs 1 (r :: rs)) as (src & Hsrc & _ & Hx & Herr).
    exists response, (r :: rs),
      (st_markdown question :: sevs
         ++ [call_create (prompt_of question (context_of (r :: rs)))
                         temperature max_tokens]
         ++ st_markdown response :: src), src.
    split; [|split; [|split; [|split; [|split]]]].
    + intros t w Hm. eapply handle_question_results; eauto.
    + exact Hsrc.
    + cbn. rewrite filter_app, Henc. cbn.
      assert (E : filter is_encode src = []).
      { clear - Hx. induction src as [|x src IH]; [reflexivity|].
        cbn in *. destruct x; cbn in *; try discriminate; auto. }
      now rewrite E.
    + cbn. rewrite filter_app, length_app. cbn.
      assert (E : filter is_search src = []).
      { clear - Hx. induction src as [|x src IH]; [reflexivity|].
        cbn in *. destruct x; cbn in *; try discriminate; auto. }
      rewrite E. cbn. lia.
    + cbn. rewrite filter_app, Hcre. cbn.
      now rewrite (no_call_no_create _ Hx).
    + cbn. rewrite filter_app, Hdraw. cbn.
      now rewrite (filter_drawing_id _ Hx Herr).
Qed.

(** X4. Every external call is attempted once: a question asks the
    embedding model exactly once, runs the search statement at most once,
    and calls the chat model exactly once when the search returned rows
    and not at all otherwise. *)
Theorem question_calls_each_service_once :
  forall model conn client top_k temperature max_tokens question t w,
    messages w = Some t ->
    exists response sources w' evs,
      handle_question model conn client top_k temperature max_tokens question w
        = (Ok tt, w') /\
      messages w' = Some (t ++ [user_turn question;
                                assistant_turn response sources]) /\
      log w' = log w ++ evs /\
      filter is_encode evs = [call_encode question] /\
      length (filter is_search evs) <= 1 /\
      filter is_create evs =
        match sources with
        | [] => []
        | _ :: _ => [call_create (prompt_of question (context_of sources))
                                 temperature max_tokens]
        end.
Proof.
  intros model conn client top_k temperature max_tokens question t w Hm.
  destruct (handle_question_trace model conn client top_k temperature max_tokens
              question) as (response & sources & evs & src & Hrun & _ & He & Hs & Hc & _).
  exists response, sources. eexists _, evs.
  split; [apply Hrun, Hm|]. repeat split; assumption.
Qed.

(** X5. When the search returns rows and the chat model answers, the
    answer of the chat model is drawn and stored unchanged as the content
    of the assistant turn, the rows are stored as its sources in the order
    of the search, and the run draws, in this order: the question, the
    answer, the sources. *)
Theorem generated_answer_is_stored :
  forall model conn client top_k temperature max_tokens question v content t w,
    messages w = Some t ->
    encode model question = Ok v ->
    search_error conn v top_k = None ->
    (0 <= top_k)%Z ->
    select_similar (dialogues conn) v top_k <> [] ->
    create client
      (prompt_of question (context_of (select_similar (dialogues conn) v top_k)))
      temperature max_tokens = Ok content ->
    exists src,
      logs (show_sources (select_similar (dialogues conn) v top_k)) tt src /\
      handle_question model conn client top_k temperature max_tokens question w =
      (Ok tt,
       {| messages :=
            Some (t ++ [user_turn question;
                        assistant_turn content
                          (select_similar (dialogues conn) v top_k)]);
          log := log w ++
                 [st_markdown question; call_encode question; call_search v top_k;
                  call_create
                    (prompt_of question
                       (context_of (select_similar (dialogues conn) v top_k)))
                    temperature max_tokens;
                  st_markdown content] ++ src |}).
Proof.
  intros model conn client top_k temperature max_tokens question v content t w
    Hm He Hs Hk Hne Hc.
  pose proof (search_fetches question model conn top_k v He Hs Hk) as Hl.
  destruct (select_similar (dialogues conn) v top_k) as [|r rs] eqn:Hsel;
    [congruence|].
  destruct (show_sources_from_logs 1 (r :: rs)) as (src & Hsrc & _).
  exists src. split; [exact Hsrc|].
  rewrite (handle_question_results model conn client top_k temperature max_tokens
             question t w _ r rs content _ src Hm Hl
             (generate_returns _ _ _ _ _ _ Hc) Hsrc).
  reflexivity.
Qed.

(** X6. The transcript is never part of a request: the answer, the
    sources and everything drawn for a question are the same whatever the
    conversation held before. *)
Theorem answer_ignores_history :
  forall model conn client top_k temperature max_tokens question,
    exists response sources evs,
      forall t l,
        handle_question model conn client top_k temperature max_tokens question
          {| messages := Some t; log := l |} =
        (Ok tt,
         {| messages := Some (t ++ [user_turn question;
                                   assistant_turn response sources]);
            log := l ++ evs |}).
Proof.
  intros model conn client top_k temperature max_tokens question.
  destruct (handle_question_trace model conn client top_k temperature max_tokens
              question) as (response & sources & evs & src & Hrun & _).
  exists response, sources, evs. intros t l.
  now rewrite (Hrun t {| messages := Some t; log := l |} eq_refl).
Qed.

(** X7. What a later run draws again from the transcript for the two turns
    of a question is what the run of the question left on the page: the
    question, the answer and the lines of the sources, the calls and the
    error banners apart. *)
Theorem history_redraws_the_answer :
  forall model conn client top_k temperature max_tokens question t w,
    messages w = Some t ->
    exists response sources w' evs,
      handle_question model conn client top_k temperature max_tokens question w
        = (Ok tt, w') /\
      messages w' = Some (t ++ [user_turn question;
                                assistant_turn response sources]) /\
      log w' = log w ++ evs /\
      logs (show_history [user_turn question; assistant_turn response sources]) tt
           (filter is_drawing evs).
Proof.
  intros model conn client top_k temperature max_tokens question t w Hm.
  destruct (handle_question_trace model conn client top_k temperature max_tokens
              question) as (response & sources & evs & src & Hrun & Hsrc & _ & _ & _ & Hd).
  exists response, sources. eexists _, evs.
  split; [apply Hrun, Hm|]. split; [reflexivity|]. split; [reflexivity|].
  rewrite Hd. now apply show_history_two_turns.
Qed.

(** *** What is drawn *)

Lemma message_sources_logs (m : message) :
  exists sevs,
    logs (match msg_sources m with
          | Some (r :: rs) => show_sources (r :: rs)
          | _ => ret tt
          end) tt sevs /\
    filter is_external_call sevs = [].
Proof.
  destruct (msg_sources m) as [[|r rs]|].
  - exists []. split; [apply logs_ret|reflexivity].
  - destruct (show_sources_from_logs 1 (r :: rs)) as (src & Hsrc & _ & Hx & _).
    exists src. split; [exact Hsrc|exact Hx].
  - exists []. split; [apply logs_ret|reflexivity].
Qed.

Lemma show_history_draws l :
  exists evs, logs (show_history l) tt evs /\ filter is_external_call evs = [].
Proof.
  induction l as [|m rest (evs & IH & Hx)].
  - exists []. split; [apply logs_ret|reflexivity].
  - destruct (message_sources_logs m) as (sevs & Hs & Hsx).
    exists ([st_markdown (msg_content m)] ++ sevs ++ evs). split.
    + cbn [show_history].
      eapply logs_bind; [apply logs_emit|].
      eapply logs_bind; [exact Hs|exact IH].
    + rewrite !filter_app, Hsx, Hx. reflexivity.
Qed.

(** X8. The history is drawn in the order of the transcript: the drawing
    of a transcript made of two parts is the drawing of the first part
    followed by the drawing of the second, and the drawing of a transcript
    starts with the content of its first turn. *)
Theorem history_is_drawn_in_order :
  (forall l1 l2, exists evs1 evs2,
      logs (show_history l1) tt evs1 /\
      logs (show_history l2) tt evs2 /\
      logs (show_history (l1 ++ l2)) tt (evs1 ++ evs2)) /\
  (forall m l, exists evs,
      logs (show_history (m :: l)) tt (st_markdown (msg_content m) :: evs)).
Proof.
  split.
  - intros l1 l2. induction l1 as [|m l1 (evs1 & evs2 & H1 & H2 & H12)].
    + destruct (show_history_draws l2) as (evs2 & H2 & _).
      exists [], evs2. split; [apply logs_ret|]. split; exact H2.
    + destruct (message_sources_logs m) as (sevs & Hs & _).
      exists ([st_markdown (msg_content m)] ++ sevs ++ evs1), evs2.
      split; [|split; [exact H2|]].
      * cbn [show_history].
        eapply logs_bind; [apply logs_emit|].
        eapply logs_bind; [exact Hs|exact H1].
      * change ((m :: l1) ++ l2) with (m :: (l1 ++ l2)).
        cbn [show_history]. rewrite <- !app_assoc.
        eapply logs_bind; [apply logs_emit|].
        eapply logs_bind; [exact Hs|exact H12].
  - intros m l.
    destruct (message_sources_logs m) as (sevs & Hs & _).
    destruct (show_history_draws l) as (evs & Hl & _).
    exists (sevs ++ evs). cbn [show_history].
    change (st_markdown (msg_content m) :: sevs ++ evs)
      with ([st_markdown (msg_content m)] ++ sevs ++ evs).
    eapply logs_bind; [apply logs_emit|].
    eapply logs_bind; [exact Hs|exact Hl].
Qed.

Lemma show_sources_from_headings i sources :
  exists evs,
    logs (show_sources_from i sources) tt evs /\
    filter is_heading evs =
      map (fun p => source_heading (fst p) (similarity (snd p)))
          (combine (seq i (length sources)) sources).
Proof.
  revert i. induction sources as [|r rest IH]; intros i.
  - exists []. split; [apply logs_ret|reflexivity].
  - destruct (IH (S i)) as (evs & Hl & Hh).
    exists ([source_heading i (similarity r)]
            ++ [st_markdown (lit "*ID: " ++ dialogue_id r ++ lit "*")]
            ++ [st_text (preview (text r))] ++ [st_divider] ++ evs).
    split.
    + cbn [show_sources_from].
      repeat (eapply logs_bind; [apply logs_emit|]). exact Hl.
    + cbn. now rewrite Hh.
Qed.

(** X9. The sources of an answer are headed "Dialogue 1", "Dialogue 2",
    ... in the order of the rows, each heading with the similarity of its
    own row. *)
Theorem sources_are_numbered_from_one :
  forall sources, exists evs,
    logs (show_sources sources) tt evs /\
    filter is_heading evs =
      map (fun p => source_heading (fst p) (similarity (snd p)))
          (combine (seq 1 (length sources)) sources).
Proof.
  intros sources. apply show_sources_from_headings.
Qed.

(** X10. The preview of a preview is that preview; a preview has at most
    303 characters, and its first 300 characters are the first 300
    characters of the stored text. *)
Theorem preview_is_idempotent :
  forall text,
    preview (preview text) = preview text /\
    length (preview text) <= 303 /\
    firstn 300 (preview text) = firstn 300 text.
Proof.
  intros text. unfold preview.
  destruct (Nat.ltb_spec 300 (length text)) as [Hl|Hl].
  - assert (Hf : length (firstn 300 text) = 300)
      by (rewrite length_firstn; lia).
    assert (Hp : length (firstn 300 text ++ lit "...") = 303)
      by (rewrite length_app, Hf; reflexivity).
    assert (Hk : firstn 300 (firstn 300 text ++ lit "...") = firstn 300 text).
    { rewrite firstn_app, Hf, firstn_firstn. cbn [Nat.sub Nat.min firstn].
      now rewrite app_nil_r. }
    rewrite Hp. cbn [Nat.ltb Nat.leb]. rewrite Hk.
    split; [reflexivity|]. split; [lia|reflexivity].
  - destruct (Nat.ltb_spec 300 (length text)); [lia|].
    split; [reflexivity|]. split; [lia|reflexivity].
Qed.

(** *** Whole runs of the script *)

Lemma no_call_no_query_call (evs : list event) :
  filter is_external_call evs = [] -> filter is_query_call evs = [].
Proof.
  induction evs as [|x evs IH]; [reflexivity|].
  cbn. destruct x; cbn; try discriminate; auto.
Qed.

Lemma get_groq_client_draws env :
  exists client evs,
    logs (get_groq_client env) client evs /\ filter is_external_call evs = [].
Proof.
  unfold get_groq_client.
  destruct (getenv env (lit "GROQ_API_KEY")) as [[|c key]|].
  - eexists _, _. split; [logs_steps|reflexivity].
  - eexists _, _. split; [logs_steps|reflexivity].
  - eexists _, _. split; [logs_steps|reflexivity].
Qed.

Lemma show_dialogue_count_trace conn :
  logs (show_dialogue_count conn) tt
       (match count_error conn with
        | Some e =>
          [call_count;
           sidebar_warning (lit "⚠️ Erreur: " ++ e);
           sidebar_info (lit "Exécutez d'abord le notebook pour charger les dialogues.")]
        | None =>
          [call_count; sidebar_success (Z.of_nat (length (dialogues conn)))]
        end).
Proof.
  unfold show_dialogue_count.
  destruct (count_error conn) as [e|]; intros w;
    unfold try_except, bind, emit, raise, logged; cbn;
    now rewrite <- !app_assoc.
Qed.

(** With the three resources, [main] draws the page and the count and
    runs the conversation. *)
Lemma main_with_resources env ui w model conn client cevs gevs :
  new_SentenceTransformer env (lit "paraphrase-multilingual-MiniLM-L12-v2")
    = Ok model ->
  logs (get_db_connection env) (Some conn) cevs ->
  logs (get_groq_client env) (Some client) gevs ->
  exists pevs,
    main env ui w =
    conversation model conn client ui
      (logged w (pevs ++ cevs ++ gevs ++
         match count_error conn with
         | Some e =>
           [call_count;
            sidebar_warning (lit "⚠️ Erreur: " ++ e);
            sidebar_info (lit "Exécutez d'abord le notebook pour charger les dialogues.")]
         | None =>
           [call_count; sidebar_success (Z.of_nat (length (dialogues conn)))]
         end)) /\
    filter is_external_call pevs = [].
Proof.
  intros Hm Hc Hg.
  destruct draw_page_logs as (pevs & Hp & Hpx).
  pose proof (show_dialogue_count_trace conn) as Hd.
  exists pevs. split; [|exact Hpx].
  unfold main, load_embedding_model. unfold bind at 1. rewrite Hp.
  unfold bind at 1. unfold lift at 1. rewrite Hm.
  unfold bind at 1. rewrite Hc. unfold bind at 1. rewrite Hg.
  unfold bind at 1. rewrite Hd. now rewrite !logged_app.
Qed.

(** Without a connection or without a client, [main] stops on the
    initialisation error. *)
Lemma main_without_resources env ui model conn client cevs gevs :
  new_SentenceTransformer env (lit "paraphrase-multilingual-MiniLM-L12-v2")
    = Ok model ->
  logs (get_db_connection env) conn cevs ->
  logs (get_groq_client env) client gevs ->
  conn = None \/ client = None ->
  exists pevs,
    logs (main env ui) tt
         (pevs ++ cevs ++ gevs ++
          [st_error (lit "Impossible d'initialiser le système. Vérifiez votre configuration.")]) /\
    filter is_external_call pevs = [].
Proof.
  intros Hm Hc Hg Hnone.
  destruct draw_page_logs as (pevs & Hp & Hpx).
  exists pevs. split; [|exact Hpx].
  unfold main.
  eapply logs_bind; [exact Hp|].
  eapply (logs_bind _ _ model _ [] _); [apply logs_lift, Hm|].
  eapply logs_bind; [exact Hc|].
  eapply logs_bind; [exact Hg|].
  destruct Hnone as [->| ->]; [|destruct conn]; apply logs_emit.
Qed.

Lemma main_load_raises env ui w e :
  new_SentenceTransformer env (lit "paraphrase-multilingual-MiniLM-L12-v2")
    = Raise e ->
  exists pevs,
    main env ui w = (Raise e, logged w pevs) /\
    filter is_external_call pevs = [] /\
    filter is_error pevs = [].
Proof.
  intros Hm.
  eexists. split; [|split].
  - unfold main, load_embedding_model, draw_page.
    unfold bind, emit, lift. cbn. rewrite Hm. unfold logged. cbn.
    rewrite <- !app_assoc. cbn. reflexivity.
  - reflexivity.
  - reflexivity.
Qed.

(** A run either stops before the conversation, having called nothing,
    or runs the conversation after the page and the count. *)
Lemma main_cases env ui w :
  (exists r evs,
      main env ui w = (r, logged w evs) /\ filter is_external_call evs = []) \/
  (exists model conn client pre,
      main env ui w = conversation model conn client ui (logged w pre) /\
      filter is_query_call pre = []).
Proof.
  destruct (new_SentenceTransformer env (lit "paraphrase-multilingual-MiniLM-L12-v2"))
    as [model|e] eqn:Hm.
  2:{ left. destruct (main_load_raises env ui w e Hm) as (pevs & Hr & Hx & _).
      eauto. }
  destruct (get_db_connection_logs env) as (conn & cevs & Hc & Hcx).
  destruct (get_groq_client_draws env) as (client & gevs & Hg & Hgx).
  destruct conn as [conn|].
  - destruct client as [client|].
    + right.
      destruct (main_with_resources env ui w model conn client cevs gevs Hm Hc Hg)
        as (pevs & Hr & Hpx).
      eexists model, conn, client, _.
      split; [exact Hr|].
      rewrite !filter_app.
      rewrite (no_call_no_query_call _ Hpx), (no_call_no_query_call _ Hcx),
        (no_call_no_query_call _ Hgx).
      destruct (count_error conn); reflexivity.
    + left.
      destruct (main_without_resources env ui model (Some conn) None cevs gevs
                  Hm Hc Hg (or_intror eq_refl)) as (pevs & Hr & Hpx).
      eexists _, _. split; [apply Hr|].
      rewrite !filter_app, Hpx, Hcx, Hgx. reflexivity.
  - left.
    destruct (main_without_resources env ui model None client cevs gevs
                Hm Hc Hg (or_introl eq_refl)) as (pevs & Hr & Hpx).
    eexists _, _. split; [apply Hr|].
    rewrite !filter_app, Hpx, Hcx, Hgx. reflexivity.
Qed.

(** The conversation: the transcript it leaves and, when no question was
    typed, that it called nothing. *)
Lemma conversation_trace model conn client ui w :
  exists t5 evs,
    conversation model conn client ui w =
    (Ok tt, {| messages := Some (if clear_button ui then [] else t5);
               log := log w ++ evs |}) /\
    match chat_input ui with
    | Some (c :: q) =>
      exists response sources,
        t5 = transcript w ++ [user_turn (c :: q); assistant_turn response sources]
    | _ => t5 = transcript w /\ filter is_external_call evs = []
    end.
Proof.
  destruct (show_history_draws (transcript w)) as (hevs & Hh & Hhx).
  set (w3 := {| messages := Some (transcript w);
                log := (log w ++ [st_divider]) ++ hevs |}).
  assert (H3 : conversation model conn client ui w =
             (match chat_input ui with
              | Some (c :: q) =>
                handle_question model conn client (top_k_slider ui)
                  (temperature_slider ui) (max_tokens_slider ui) (c :: q)
              | _ => ret tt
              end;; clear_history (clear_button ui)) w3).
  { unfold conversation.
    unfold bind at 1. unfold emit at 1.
    unfold bind at 1. unfold init_messages at 1. unfold transcript in *.
    destruct w as [[t|] l]; cbn [messages log set_messages].
    - unfold bind at 1. unfold get_messages at 1. cbn [messages].
      unfold bind at 1. rewrite Hh. reflexivity.
    - unfold bind at 1. unfold get_messages at 1. cbn [messages].
      unfold bind at 1. rewrite Hh. reflexivity. }
  rewrite H3. clear H3.
  assert (exists t5 qevs,
             (match chat_input ui with
              | Some (c :: q) =>
                handle_question model conn client (top_k_slider ui)
                  (temperature_slider ui) (max_tokens_slider ui) (c :: q)
              | _ => ret tt
              end) w3 = (Ok tt, {| messages := Some t5; log := log w3 ++ qevs |}) /\
             match chat_input ui with
             | Some (c :: q) =>
               exists response sources,
                 t5 = transcript w ++ [user_turn (c :: q);
                                       assistant_turn response sources]
             | _ => t5 = transcript w /\ qevs = []
             end)
    as (t5 & qevs & H5 & Ht5).
  { destruct (chat_input ui) as [[|c q]|].
    - exists (transcript w), []. split; [|now split].
      unfold ret, w3. cbn. now rewrite app_nil_r.
    - destruct (handle_question_appends model conn client (top_k_slider ui)
                  (temperature_slider ui) (max_tokens_slider ui) (c :: q)
                  (transcript w) w3 eq_refl) as (response & sources & evs & He).
      eexists _, evs. split; [exact He|]. eauto.
    - exists (transcript w), []. split; [|now split].
      unfold ret, w3. cbn. now rewrite app_nil_r. }
  unfold bind. rewrite H5.
  destruct (clear_button ui).
  - destruct (clear_history_clicked t5 (log w3 ++ qevs)) as (cevs & Hc & Hce).
    rewrite Hc. exists t5, (([st_divider] ++ hevs) ++ qevs ++ cevs).
    split; [unfold w3; cbn; now rewrite <- !app_assoc|].
    destruct (chat_input ui) as [[|c q]|]; try exact Ht5.
    + destruct Ht5 as [Ht ->]. split; [exact Ht|].
      rewrite !filter_app, Hhx. cbn.
      destruct t5; [now rewrite Hce|].
      cbn in Hc. inversion Hc as [Hl].
      apply app_inv_head in Hl. cbn in Hl. now subst cevs.
    + destruct Ht5 as [Ht ->]. split; [exact Ht|].
      rewrite !filter_app, Hhx. cbn.
      destruct t5; [now rewrite Hce|].
      cbn in Hc. inversion Hc as [Hl].
      apply app_inv_head in Hl. cbn in Hl. now subst cevs.
  - rewrite clear_history_not_clicked.
    exists t5, (([st_divider] ++ hevs) ++ qevs).
    split; [unfold w3; cbn; now rewrite <- !app_assoc|].
    destruct (chat_input ui) as [[|c q]|]; try exact Ht5.
    + destruct Ht5 as [Ht ->]. split; [exact Ht|].
      rewrite !filter_app, Hhx. reflexivity.
    + destruct Ht5 as [Ht ->]. split; [exact Ht|].
      rewrite !filter_app, Hhx. reflexivity.
Qed.

Lemma get_db_connection_raises env e :
  psycopg_connect env
    (getenv_default env (lit "DB_HOST") (lit "localhost"))
    (getenv_default env (lit "DB_PORT") (lit "5432"))
    (getenv_default env (lit "DB_NAME") (lit "rag_chatbot"))
    (getenv_default env (lit "DB_USER") (lit "postgres"))
    (getenv_default env (lit "DB_PASSWORD") []) = Raise e ->
  logs (get_db_connection env) None
       [st_error (lit "Erreur de connexion à la base de données: " ++ e)].
Proof.
  intros Hc w. unfold get_db_connection, try_except, bind, lift.
  rewrite Hc. reflexivity.
Qed.

Lemma get_db_connection_returns env conn :
  psycopg_connect env
    (getenv_default env (lit "DB_HOST") (lit "localhost"))
    (getenv_default env (lit "DB_PORT") (lit "5432"))
    (getenv_default env (lit "DB_NAME") (lit "rag_chatbot"))
    (getenv_default env (lit "DB_USER") (lit "postgres"))
    (getenv_default env (lit "DB_PASSWORD") []) = Ok conn ->
  logs (get_db_connection env) (Some conn) [].
Proof.
  intros Hc w. unfold get_db_connection, try_except, bind, lift, ret.
  rewrite Hc. now rewrite logged_nil.
Qed.

Lemma get_groq_client_present env c key :
  getenv env (lit "GROQ_API_KEY") = Some (c :: key) ->
  logs (get_groq_client env) (Some (new_Groq env (c :: key))) [].
Proof.
  intros Hk. unfold get_groq_client. rewrite Hk. apply logs_ret.
Qed.

Lemma get_groq_client_empty env :
  getenv env (lit "GROQ_API_KEY") = Some [] ->
  logs (get_groq_client env) None
       [st_error (lit "GROQ_API_KEY non trouvée dans le fichier .env")].
Proof.
  intros Hk w. unfold get_groq_client. rewrite Hk. reflexivity.
Qed.

(** A run in which a resource is missing stops without a call. *)
Lemma main_stops_without_call env ui w conn client cevs gevs :
  logs (get_db_connection env) conn cevs ->
  logs (get_groq_client env) client gevs ->
  filter is_external_call cevs = [] ->
  filter is_external_call gevs = [] ->
  conn = None \/ client = None ->
  exists r evs,
    main env ui w = (r, logged w evs) /\
    filter is_external_call evs = [] /\
    (forall model,
        new_SentenceTransformer env (lit "paraphrase-multilingual-MiniLM-L12-v2")
          = Ok model ->
        r = Ok tt /\
        (forall x, In x cevs \/ In x gevs -> In x evs) /\
        last evs st_divider =
          st_error (lit "Impossible d'initialiser le système. Vérifiez votre configuration.")).
Proof.
  intros Hc Hg Hcx Hgx Hnone.
  destruct (new_SentenceTransformer env (lit "paraphrase-multilingual-MiniLM-L12-v2"))
    as [model|e] eqn:Hm.
  - destruct (main_without_resources env ui model conn client cevs gevs
                Hm Hc Hg Hnone) as (pevs & Hr & Hpx).
    eexists _, _. split; [apply Hr|]. split.
    + rewrite !filter_app, Hpx, Hcx, Hgx. reflexivity.
    + intros model' _. split; [reflexivity|]. split.
      * intros x [Hx|Hx]; rewrite !in_app_iff; tauto.
      * rewrite !app_assoc. apply last_last.
  - destruct (main_load_raises env ui w e Hm) as (pevs & Hr & Hpx & _).
    eexists _, _. split; [exact Hr|]. split; [exact Hpx|].
    intros model' Hx. discriminate.
Qed.

(** X11. When [psycopg.connect] raises [e], [get_db_connection] draws
    "Erreur de connexion à la base de données: " followed by [e] and
    returns [None]; [main] then stops, API key or not, without a call to the
    embedding model, the database or the chat model and without touching
    the transcript, and when the embedding model loads its last drawing is
    the initialisation error. *)
Theorem connection_failure_refuses_queries :
  forall env ui w e,
    psycopg_connect env
      (getenv_default env (lit "DB_HOST") (lit "localhost"))
      (getenv_default env (lit "DB_PORT") (lit "5432"))
      (getenv_default env (lit "DB_NAME") (lit "rag_chatbot"))
      (getenv_default env (lit "DB_USER") (lit "postgres"))
      (getenv_default env (lit "DB_PASSWORD") []) = Raise e ->
    logs (get_db_connection env) None
         [st_error (lit "Erreur de connexion à la base de données: " ++ e)] /\
    exists r evs,
      main env ui w = (r, logged w evs) /\
      filter is_external_call evs = [] /\
      (forall model,
          new_SentenceTransformer env (lit "paraphrase-multilingual-MiniLM-L12-v2")
            = Ok model ->
          r = Ok tt /\
          In (st_error (lit "Erreur de connexion à la base de données: " ++ e)) evs /\
          last evs st_divider =
            st_error (lit "Impossible d'initialiser le système. Vérifiez votre configuration.")).
Proof.
  intros env ui w e He.
  pose proof (get_db_connection_raises env e He) as Hc.
  split; [exact Hc|].
  destruct (get_groq_client_draws env) as (client & gevs & Hg & Hgx).
  destruct (main_stops_without_call env ui w None client _ gevs Hc Hg eq_refl Hgx
              (or_introl eq_refl)) as (r & evs & Hr & Hx & Hok).
  exists r, evs. split; [exact Hr|]. split; [exact Hx|].
  intros model Hm. destruct (Hok model Hm) as (-> & Hin & Hlast).
  split; [reflexivity|]. split; [|exact Hlast].
  apply Hin. left. now left.
Qed.

(** X12. An API key that is set to the empty string counts as missing:
    [get_groq_client] draws the same error and returns [None], and [main]
    stops without a call; a key of at least one character gives the client
    built on that key, with nothing drawn. *)
Theorem empty_api_key_is_missing :
  forall env,
    (getenv env (lit "GROQ_API_KEY") = Some [] ->
     logs (get_groq_client env) None
          [st_error (lit "GROQ_API_KEY non trouvée dans le fichier .env")] /\
     forall ui w, exists r evs,
       main env ui w = (r, logged w evs) /\
       filter is_external_call evs = []) /\
    (forall c key,
        getenv env (lit "GROQ_API_KEY") = Some (c :: key) ->
        logs (get_groq_client env) (Some (new_Groq env (c :: key))) []).
Proof.
  intros env. split.
  - intros Hk. pose proof (get_groq_client_empty env Hk) as Hg.
    split; [exact Hg|]. intros ui w.
    destruct (get_db_connection_logs env) as (conn & cevs & Hc & Hcx).
    destruct (main_stops_without_call env ui w conn None cevs _ Hc Hg Hcx eq_refl
                (or_intror eq_refl)) as (r & evs & Hr & Hx & _).
    eauto.
  - intros c key Hk. now apply get_groq_client_present.
Qed.

(** X13. When the embedding model does not load, [main] raises the error
    of the loader: it has drawn the page only, no error banner of its own,
    and has neither made a call nor touched the transcript. *)
Theorem model_load_failure_is_fatal :
  forall env ui w e,
    new_SentenceTransformer env (lit "paraphrase-multilingual-MiniLM-L12-v2")
      = Raise e ->
    exists evs,
      main env ui w = (Raise e, logged w evs) /\
      filter is_external_call evs = [] /\
      filter is_error evs = [].
Proof.
  intros env ui w e Hm. now apply main_load_raises.
Qed.

(** X14. A failing count of the dialogues does not stop the run: with the
    three resources, [main] draws the warning and the hint of the sidebar,
    handles the question and ends normally with the two turns of the
    question after the transcript. *)
Theorem count_failure_does_not_block :
  forall env ui w model conn c key e c' q,
    new_SentenceTransformer env (lit "paraphrase-multilingual-MiniLM-L12-v2")
      = Ok model ->
    psycopg_connect env
      (getenv_default env (lit "DB_HOST") (lit "localhost"))
      (getenv_default env (lit "DB_PORT") (lit "5432"))
      (getenv_default env (lit "DB_NAME") (lit "rag_chatbot"))
      (getenv_default env (lit "DB_USER") (lit "postgres"))
      (getenv_default env (lit "DB_PASSWORD") []) = Ok conn ->
    getenv env (lit "GROQ_API_KEY") = Some (c :: key) ->
    count_error conn = Some e ->
    chat_input ui = Some (c' :: q) ->
    clear_button ui = false ->
    exists response sources evs,
      main env ui w =
      (Ok tt,
       {| messages := Some (transcript w ++
                            [user_turn (c' :: q); assistant_turn response sources]);
          log := log w ++ evs |}) /\
      In (sidebar_warning (lit "⚠️ Erreur: " ++ e)) evs /\
      In (sidebar_info (lit "Exécutez d'abord le notebook pour charger les dialogues."))
         evs.
Proof.
  intros env ui w model conn c key e c' q Hm Hconn Hk Hcount Hq Hclear.
  destruct (main_with_resources env ui w model conn (new_Groq env (c :: key)) [] []
              Hm (get_db_connection_returns env conn Hconn)
              (get_groq_client_present env c key Hk)) as (pevs & Hr & _).
  rewrite Hcount in Hr. rewrite Hr.
  match goal with |- context [logged w ?l] => set (pre := l) end.
  destruct (conversation_trace model conn (new_Groq env (c :: key)) ui
              (logged w pre)) as (t5 & evs & Hconv & Ht5).
  rewrite Hq in Ht5. destruct Ht5 as (response & sources & ->).
  rewrite Hclear in Hconv. rewrite Hconv.
  exists response, sources, (pre ++ evs).
  split; [|split].
  - unfold logged, transcript. cbn. now rewrite app_assoc.
  - unfold pre. rewrite !in_app_iff. cbn. tauto.
  - unfold pre. rewrite !in_app_iff. cbn. tauto.
Qed.

(** X15. A run in which no question was typed, or an empty one, calls
    neither the embedding model nor the search nor the chat model, and
    unless the clear button was pressed it leaves the transcript as it
    was. *)
Theorem idle_run_calls_nothing :
  forall env ui w,
    chat_input ui = None \/ chat_input ui = Some [] ->
    exists evs,
      log (snd (main env ui w)) = log w ++ evs /\
      filter is_query_call evs = [] /\
      (clear_button ui = false ->
       transcript (snd (main env ui w)) = transcript w).
Proof.
  intros env ui w Hq.
  destruct (main_cases env ui w)
    as [(r & evs & Hr & Hx)|(model & conn & client & pre & Hr & Hpre)].
  - rewrite Hr. exists evs. split; [reflexivity|].
    split; [now apply no_call_no_query_call|reflexivity].
  - destruct (conversation_trace model conn client ui (logged w pre))
      as (t5 & evs & Hconv & Ht5).
    assert (Hidle : t5 = transcript w /\ filter is_external_call evs = []).
    { destruct Hq as [Hq|Hq]; rewrite Hq in Ht5; exact Ht5. }
    destruct Hidle as [-> Hx].
    rewrite Hr, Hconv. exists (pre ++ evs). split; [|split].
    + cbn. now rewrite app_assoc.
    + rewrite filter_app, Hpre. now apply no_call_no_query_call.
    + intros ->. reflexivity.
Qed.




End App.

(** ** The script on the sample collaborators *)

Lemma no_results_skips_generation_witness :
  exists w' evs,
    handle_question unit_cosine_distance sample_model (conn_over []) sample_client
      3%Z (7 # 10)%Q 500%Z sample_question started = (Ok tt, w') /\
    messages w' = Some ([] ++ [user_turn sample_question;
                               assistant_turn no_results_message []]) /\
    log w' = log started ++ evs /\
    filter is_create evs = [] /\
    last evs st_divider = st_markdown no_results_message.
Proof.
  apply (no_results_skips_generation unit_cosine_distance sample_model
           (conn_over []) sample_client 3%Z (7 # 10)%Q 500%Z sample_question []
           started fresh_session).
  - reflexivity.
  - vm_compute. reflexivity.
Defined.

(** C2, as the claim has it, fails: a stored dialogue whose embedding is
    opposite to the embedding of the question is returned with the
    similarity [1 - 2 = -1], which is below 0. *)
Lemma search_similarity_below_zero :
  exists r w',
    search_similar_dialogues unit_cosine_distance sample_question sample_model
      (conn_over opposite_table) 1%Z started = (Ok [r], w') /\
    (similarity r < 0)%Q /\
    ~ (0 <= similarity r <= 1)%Q.
Proof.
  eexists _, _. split; [vm_compute; reflexivity|]. split.
  - vm_compute. reflexivity.
  - intros [H _]. vm_compute in H. apply H. reflexivity.
Qed.

Lemma search_returns_sorted_top_k_witness :
  (0 < 2)%Z /\
  exists results evs,
    logs (search_similar_dialogues unit_cosine_distance sample_question
            sample_model (conn_over sample_table) 2%Z) results evs /\
    (Z.of_nat (length results) <= 2)%Z /\
    StronglySorted similarity_ge results.
Proof.
  split; [lia|].
  destruct (search_returns_sorted_top_k unit_cosine_distance sample_question
              sample_model (conn_over sample_table) 2%Z eq_refl)
    as (results & evs & Hl & Hn & Hs & _).
  exists results, evs. auto.
Defined.

Lemma context_is_joined_contents_witness :
  context_of [row_A; row_B] = [65; 10; 10; 66]%N.
Proof.
  apply (proj1 (proj2 (proj2 (context_is_joined_contents unit_cosine_distance)))
           row_A row_B); reflexivity.
Defined.

Lemma generation_error_becomes_answer_witness :
  exists w' evs,
    handle_question unit_cosine_distance sample_model (conn_over sample_table)
      failing_client 1%Z (7 # 10)%Q 500%Z sample_question started = (Ok tt, w') /\
    messages w' =
      Some ([] ++ [user_turn sample_question;
                   assistant_turn
                     (lit "Erreur lors de la génération: " ++ lit "rate limit exceeded")
                     (with_similarity unit_cosine_distance [1; 0]%Q
                        (nth 1 sample_table
                           (Build_DialogueRecord 0%Z [] [] [])) :: [])]) /\
    log w' = log started ++ evs /\
    In (st_markdown (lit "Erreur lors de la génération: " ++ lit "rate limit exceeded")) evs /\
    filter is_error evs = [].
Proof.
  apply (proj2 (proj2 (generation_error_becomes_answer unit_cosine_distance
                         sample_question failing_client (7 # 10)%Q 500%Z))
           sample_model (conn_over sample_table) 1%Z [] started fresh_session).
  - reflexivity.
  - vm_compute. reflexivity.
  - reflexivity.
Defined.

Lemma search_failure_degrades_witness :
  exists w' evs,
    handle_question unit_cosine_distance sample_model broken_conn sample_client
      3%Z (7 # 10)%Q 500%Z sample_question started = (Ok tt, w') /\
    messages w' = Some ([] ++ [user_turn sample_question;
                               assistant_turn no_results_message []]) /\
    log w' = log started ++ evs /\
    In (st_error (lit "Erreur lors de la recherche: "
                  ++ lit "server closed the connection unexpectedly")) evs /\
    In (st_markdown no_results_message) evs /\
    filter is_create evs = [].
Proof.
  apply (proj2 (search_failure_degrades unit_cosine_distance sample_model
                  broken_conn sample_client 3%Z (7 # 10)%Q 500%Z sample_question
                  [1; 0]%Q (lit "server closed the connection unexpectedly")
                  [] started eq_refl eq_refl eq_refl)).
Defined.

(** C6, as the claim has it, fails: with an embedding model that raises,
    the run of the question ends normally and leaves the very transcript
    that a working model leaves over an empty table. *)
Lemma embedding_failure_takes_no_results_branch :
  let failed :=
    handle_question unit_cosine_distance failing_model (conn_over sample_table)
      sample_client 3%Z (7 # 10)%Q 500%Z sample_question started in
  let no_rows :=
    handle_question unit_cosine_distance sample_model (conn_over [])
      sample_client 3%Z (7 # 10)%Q 500%Z sample_question started in
  fst failed = Ok tt /\
  messages (snd failed) = messages (snd no_rows) /\
  messages (snd failed) =
    Some [user_turn sample_question; assistant_turn no_results_message []].
Proof.
  vm_compute. repeat split.
Qed.

Lemma embedding_failure_is_no_results_witness :
  handle_question unit_cosine_distance failing_model (conn_over sample_table)
    sample_client 3%Z (7 # 10)%Q 500%Z sample_question started =
  (Ok tt,
   {| messages := Some ([] ++ [user_turn sample_question;
                               assistant_turn no_results_message []]);
      log := log started ++
             [st_markdown sample_question;
              call_encode sample_question;
              st_error (lit "Erreur lors de la recherche: " ++ lit "out of memory");
              st_markdown no_results_message] |}).
Proof.
  apply (embedding_failure_is_no_results unit_cosine_distance failing_model
           (conn_over sample_table) sample_client 3%Z (7 # 10)%Q 500%Z sample_question
           (lit "out of memory") [] started); reflexivity.
Defined.

Lemma missing_api_key_refuses_queries_witness :
  exists evs,
    snd (main unit_cosine_distance (sample_env None)
           (sample_ui (Some sample_question) false) fresh_session)
      = logged fresh_session evs /\
    filter is_external_call evs = [].
Proof.
  apply (proj1 (proj2 (missing_api_key_refuses_queries unit_cosine_distance
                         (sample_env None)
                         (sample_ui (Some sample_question) false)
                         fresh_session eq_refl))).
Defined.

Lemma clear_yields_empty_transcript_witness :
  transcript (snd (conversation unit_cosine_distance sample_model
                     (conn_over sample_table) sample_client
                     (sample_ui (Some sample_question) true) fresh_session)) = [].
Proof.
  apply (proj2 (proj2 (clear_yields_empty_transcript unit_cosine_distance))).
  reflexivity.
Defined.

Lemma preview_truncates_at_300_witness :
  preview (repeat 233%N 301) = firstn 300 (repeat 233%N 301) ++ [46; 46; 46]%N /\
  length (preview (repeat 233%N 301)) = 303 /\
  preview (lit "Merci, au revoir.") = lit "Merci, au revoir.".
Proof.
  destruct preview_truncates_at_300 as (Hshort & Hlong & _).
  split; [|split].
  - apply Hlong. vm_compute. lia.
  - apply Hlong. vm_compute. lia.
  - apply Hshort. vm_compute. lia.
Defined.

(** C10, as the claim has it, fails: when an exception that is no
    [Exception] escapes from [model.encode], the run ends between the two
    [append] and the transcript holds the user turn alone; the next
    question then puts a second user turn right after the first. *)
Lemma escaped_run_leaves_lone_user_turn :
  let interrupted :=
    escaped in_encode (lit "KeyboardInterrupt") (sample_env (Some sample_key))
            (sample_ui (Some sample_question) false) in
  let asked_again :=
    finished (sample_env (Some sample_key))
             (sample_ui (Some sample_question) false) in
  let t1 := transcript (run_session_with_escapes unit_cosine_distance
                          [interrupted] fresh_session) in
  let t2 := transcript (run_session_with_escapes unit_cosine_distance
                          [interrupted; asked_again] fresh_session) in
  t1 = [user_turn sample_question] /\
  Nat.even (length t1) = false /\
  alternating t1 = false /\
  (exists a, t2 = [user_turn sample_question; user_turn sample_question; a]) /\
  Nat.even (length t2) = false /\
  alternating t2 = false.
Proof.
  vm_compute. repeat split. eexists. reflexivity.
Qed.

Lemma transcript_follows_questions_witness :
  exists w',
    handle_question_escaping unit_cosine_distance in_encode
      (lit "KeyboardInterrupt") sample_model (conn_over sample_table)
      sample_client 3%Z (7 # 10)%Q 500%Z sample_question started =
    (Raise (lit "KeyboardInterrupt"), w') /\
    messages w' = Some ([] ++ [user_turn sample_question]).
Proof.
  apply (proj1 (proj2 (transcript_follows_questions unit_cosine_distance))).
  reflexivity.
Defined.

(** ** The further properties on the sample collaborators *)

Lemma search_returns_min_rows_witness :
  exists results,
    logs (search_similar_dialogues unit_cosine_distance sample_question
            sample_model (conn_over sample_table) 5%Z) results
         [call_encode sample_question; call_search [1; 0]%Q 5%Z] /\
    length results = Nat.min (Z.to_nat 5) (length (dialogues (conn_over sample_table))).
Proof.
  apply (search_returns_min_rows unit_cosine_distance sample_question sample_model
           (conn_over sample_table) 5%Z [1; 0]%Q); [reflexivity|reflexivity|lia].
Defined.

Lemma search_keeps_most_similar_witness :
  exists results left_out,
    logs (search_similar_dialogues unit_cosine_distance sample_question
            sample_model (conn_over sample_table) 2%Z) results
         [call_encode sample_question; call_search [1; 0]%Q 2%Z] /\
    Permutation (results ++ left_out)
      (map (with_similarity unit_cosine_distance [1; 0]%Q)
           (dialogues (conn_over sample_table))) /\
    (forall r r', In r results -> In r' left_out ->
                  (similarity r' <= similarity r)%Q).
Proof.
  apply (search_keeps_most_similar unit_cosine_distance sample_question sample_model
           (conn_over sample_table) 2%Z [1; 0]%Q); [reflexivity|reflexivity|lia].
Defined.

Lemma question_calls_each_service_once_witness :
  exists response sources w' evs,
    handle_question unit_cosine_distance sample_model (conn_over sample_table)
      sample_client 3%Z (7 # 10)%Q 500%Z sample_question started = (Ok tt, w') /\
    messages w' = Some ([] ++ [user_turn sample_question;
                               assistant_turn response sources]) /\
    log w' = log started ++ evs /\
    filter is_encode evs = [call_encode sample_question] /\
    length (filter is_search evs) <= 1 /\
    filter is_create evs =
      match sources with
      | [] => []
      | _ :: _ => [call_create (prompt_of sample_question (context_of sources))
                               (7 # 10)%Q 500%Z]
      end.
Proof.
  apply (question_calls_each_service_once unit_cosine_distance sample_model
           (conn_over sample_table) sample_client 3%Z (7 # 10)%Q 500%Z
           sample_question [] started).
  reflexivity.
Defined.

Lemma generated_answer_is_stored_witness :
  exists w',
    handle_question unit_cosine_distance sample_model (conn_over sample_table)
      sample_client 1%Z (7 # 10)%Q 500%Z sample_question started = (Ok tt, w') /\
    messages w' =
      Some [user_turn sample_question;
            assistant_turn (lit "Le client signale une panne.")
              (select_similar unit_cosine_distance sample_table [1; 0]%Q 1%Z)].
Proof.
  destruct (generated_answer_is_stored unit_cosine_distance sample_model
              (conn_over sample_table) sample_client 1%Z (7 # 10)%Q 500%Z
              sample_question [1; 0]%Q (lit "Le client signale une panne.")
              [] started eq_refl eq_refl eq_refl)
    as (src & _ & Hrun).
  - lia.
  - vm_compute. discriminate.
  - reflexivity.
  - eexists. split; [exact Hrun|reflexivity].
Defined.

Lemma history_redraws_the_answer_witness :
  exists response sources w' evs,
    handle_question unit_cosine_distance sample_model (conn_over sample_table)
      sample_client 3%Z (7 # 10)%Q 500%Z sample_question started = (Ok tt, w') /\
    messages w' = Some ([] ++ [user_turn sample_question;
                               assistant_turn response sources]) /\
    log w' = log started ++ evs /\
    logs (show_history [user_turn sample_question; assistant_turn response sources])
         tt (filter is_drawing evs).
Proof.
  apply (history_redraws_the_answer unit_cosine_distance sample_model
           (conn_over sample_table) sample_client 3%Z (7 # 10)%Q 500%Z
           sample_question [] started).
  reflexivity.
Defined.

Lemma connection_failure_refuses_queries_witness :
  exists r evs,
    main unit_cosine_distance
      (env_with (Ok sample_model) (Raise (lit "connection refused")) (Some sample_key))
      (sample_ui (Some sample_question) false) fresh_session
      = (r, logged fresh_session evs) /\
    filter is_external_call evs = [].
Proof.
  destruct (connection_failure_refuses_queries unit_cosine_distance
              (env_with (Ok sample_model) (Raise (lit "connection refused"))
                        (Some sample_key))
              (sample_ui (Some sample_question) false) fresh_session
              (lit "connection refused") eq_refl)
    as (_ & r & evs & Hr & Hx & _).
  exists r, evs. split; [exact Hr|exact Hx].
Defined.

Lemma empty_api_key_is_missing_witness :
  logs (get_groq_client (env_with (Ok sample_model) (Ok (conn_over sample_table))
                                  (Some [])))
       None [st_error (lit "GROQ_API_KEY non trouvée dans le fichier .env")].
Proof.
  apply (proj1 (empty_api_key_is_missing unit_cosine_distance
                  (env_with (Ok sample_model) (Ok (conn_over sample_table))
                            (Some [])))).
  reflexivity.
Defined.

Lemma model_load_failure_is_fatal_witness :
  exists evs,
    main unit_cosine_distance
      (env_with (Raise (lit "model not found")) (Ok (conn_over sample_table))
                (Some sample_key))
      (sample_ui (Some sample_question) false) fresh_session
      = (Raise (lit "model not found"), logged fresh_session evs) /\
    filter is_external_call evs = [] /\
    filter is_error evs = [].
Proof.
  apply (model_load_failure_is_fatal unit_cosine_distance
           (env_with (Raise (lit "model not found")) (Ok (conn_over sample_table))
                     (Some sample_key))
           (sample_ui (Some sample_question) false) fresh_session
           (lit "model not found")).
  reflexivity.
Defined.

Lemma count_failure_does_not_block_witness :
  exists response sources evs,
    main unit_cosine_distance
      (env_with (Ok sample_model) (Ok broken_conn) (Some sample_key))
      (sample_ui (Some sample_question) false) fresh_session =
    (Ok tt,
     {| messages :=
          Some (transcript fresh_session ++
                [user_turn (hd 0%N sample_question :: tl sample_question);
                 assistant_turn response sources]);
        log := log fresh_session ++ evs |}) /\
    In (sidebar_warning (lit "⚠️ Erreur: "
                         ++ lit "server closed the connection unexpectedly")) evs /\
    In (sidebar_info (lit "Exécutez d'abord le notebook pour charger les dialogues."))
       evs.
Proof.
  apply (count_failure_does_not_block unit_cosine_distance
           (env_with (Ok sample_model) (Ok broken_conn) (Some sample_key))
           (sample_ui (Some sample_question) false) fresh_session
           sample_model broken_conn (hd 0%N sample_key) (tl sample_key)
           (lit "server closed the connection unexpectedly")
           (hd 0%N sample_question) (tl sample_question));
    vm_compute; reflexivity.
Defined.

Lemma idle_run_calls_nothing_witness :
  exists evs,
    log (snd (main unit_cosine_distance (sample_env (Some sample_key))
                (sample_ui None false) started)) = log started ++ evs /\
    filter is_query_call evs = [] /\
    (clear_button (sample_ui None false) = false ->
     transcript (snd (main unit_cosine_distance (sample_env (Some sample_key))
                        (sample_ui None false) started)) = transcript started).
Proof.
  apply (idle_run_calls_nothing unit_cosine_distance (sample_env (Some sample_key))
           (sample_ui None false) started).
  left. reflexivity.
Defined.

